(** * MarketTrendClient: the subscription lifecycle of the streaming client

    A shallow embedding of [client/src/MarketTrendClient.tsx].  The React
    component keeps its observable state in [useState] cells and two refs; the
    asynchronous function [connectToStream] is suspended at its [for await]
    loop while a server stream is open.  Here the component is a record, every
    handler is a function on that record, and every suspended invocation of
    [connectToStream] is an entry of the [tasks] table, resumed by the events
    [Response] (one more element of [call.responses]) and [Ended] (the loop
    left, normally or by an exception). *)

From Stdlib Require Import SpecFloat.
From stdpp Require Import base option list strings.

Local Open Scope string_scope.
Local Open Scope nat_scope.
Local Open Scope list_scope.

(** ** JavaScript values *)

(** A JS [number] is an IEEE 754 binary64 value. *)
Definition number : Type := spec_float.

Definition num (z : Z) : number := binary_normalize 53 1024 z 0 false.

Definition zero : number := S754_zero false.

(** [ToBoolean] on numbers: [+0], [-0] and [NaN] are falsy. *)
Definition ToBoolean (x : number) : bool :=
  match x with
  | S754_zero _ | S754_nan => false
  | _ => true
  end.

(** [x > y], [x < y] and [x === y] on numbers. *)
Definition js_gt (x y : number) : bool := SFltb y x.
Definition js_lt (x y : number) : bool := SFltb x y.
Definition js_eq (x y : number) : bool := SFeqb x y.

(** [new Date()], in milliseconds. *)
Definition Date : Type := Z.

(** ** Generated message types ([./generated/datastream]) *)

Module EStockInfo.
Record t : Type := mk {
  code : string;
  name : string;
  price : number;
  change : number;
  percentChange : number;
  totalVolume : number;
  value : number;
  totalFreq : number
}.
End EStockInfo.

Module FilterRequest.
Record t : Type := mk { filter : string; sort : string }.
End FilterRequest.

Module DataStreamResponse.
(** [data] is read through [response.data?.length] and tested for
    truthiness, so it may be absent; an array, even empty, is truthy. *)
Record t : Type := mk {
  code : number;
  message : string;
  data : option (list EStockInfo.t)
}.
End DataStreamResponse.

(** ** Statistics (lines 152-158) *)

Record Stats : Type := mkStats {
  total : nat;
  gainers : nat;
  losers : nat;
  unchanged : nat
}.

(** [s.change && s.change > 0] used as a filter predicate: the left operand
    is returned when it is falsy, the comparison otherwise. *)
Definition is_gainer (s : EStockInfo.t) : bool :=
  ToBoolean (EStockInfo.change s) && js_gt (EStockInfo.change s) zero.

Definition is_loser (s : EStockInfo.t) : bool :=
  ToBoolean (EStockInfo.change s) && js_lt (EStockInfo.change s) zero.

Definition is_unchanged (s : EStockInfo.t) : bool :=
  js_eq (EStockInfo.change s) zero.

Definition stats (stocks : list EStockInfo.t) : Stats :=
  {| total := length stocks;
     gainers := length (List.filter is_gainer stocks);
     losers := length (List.filter is_loser stocks);
     unchanged := length (List.filter is_unchanged stocks) |}.

(** The sign of a number, as IEEE comparison with zero gives it; [NaN] has
    none. *)
Inductive Sign : Type := Positive | Negative | Zero.

Definition sign (x : number) : option Sign :=
  match SFcompare x zero with
  | Some Gt => Some Positive
  | Some Lt => Some Negative
  | Some Eq => Some Zero
  | None => None
  end.

Global Instance Sign_eq_dec : EqDecision Sign.
Proof. solve_decision. Defined.

(** Number of instruments of a list whose change has sign [sg]. *)
Fixpoint count_sign (sg : Sign) (l : list EStockInfo.t) : nat :=
  match l with
  | [] => 0
  | s :: l' =>
      (if decide (sign (EStockInfo.change s) = Some sg) then 1 else 0)
      + count_sign sg l'
  end.

(** ** The component's state *)

(** What a rejected [for await] or [await call.status] throws, when it is
    not [null] or [undefined]; the handler reads [err.name] and
    [err.message] only, and [err.name] only to compare it with
    ['AbortError'], so a value without a name is one whose name is another
    string. *)
Record JsError : Type := mkJsError {
  err_name : string;
  err_message : option string
}.

(** How the [try] block of one invocation of [connectToStream] is left:
    normally, by an exception, or by a rejection with [null] or
    [undefined], on which the [catch] clause itself throws when it reads
    [err.name]. *)
Inductive Outcome : Type :=
| Completed
| Threw (err : JsError)
| ThrewNullish.

(** One invocation of [connectToStream] that reached [streamData]: its
    request, the [aborted] flag of the [AbortController] it allocated, its
    local [count], and [None] while it is suspended in the loop. *)
Record Task : Type := mkTask {
  request : FilterRequest.t;
  aborted : bool;
  count : nat;
  settled : option Outcome
}.

Definition pending (t : Task) : bool :=
  match settled t with None => true | Some _ => false end.

(** The [DataStreamClient] built for a base URL. *)
Record DataStreamClient : Type := mkClient { baseUrl : string }.

(** The [useState] cells, the two refs, the pending [setTimeout] callback
    (with the [filter] and [sortBy] its closure captured) and the task table.
    An [AbortController] is identified with the index of the task that
    allocated it.  The slot [timer] holds one callback: it is what the table
    of timers of [Page], below, comes to when every cleanup clears the timer
    of its own run; what depends on timers being cleared is stated on the
    table. *)
Record State : Type := mkState {
  stocks : list EStockInfo.t;
  isConnected : bool;
  error : option string;
  filter : string;
  sortBy : string;
  lastUpdate : option Date;
  messageCount : nat;
  abortControllerRef : option nat;
  clientRef : option DataStreamClient;
  timer : option (string * string);
  tasks : list Task
}.

Definition envoyUrl : string := "http://localhost:8080".

(** The values of the first render, before any effect ran. *)
Definition initialState : State :=
  {| stocks := []; isConnected := false; error := None;
     filter := "all"; sortBy := "percent_change";
     lastUpdate := None; messageCount := 0;
     abortControllerRef := None; clientRef := None;
     timer := None; tasks := [] |}.

(** *** State setters *)

Definition setStocks (v : list EStockInfo.t) (st : State) : State :=
  mkState v (isConnected st) (error st) (filter st) (sortBy st)
    (lastUpdate st) (messageCount st) (abortControllerRef st) (clientRef st)
    (timer st) (tasks st).

Definition setIsConnected (v : bool) (st : State) : State :=
  mkState (stocks st) v (error st) (filter st) (sortBy st)
    (lastUpdate st) (messageCount st) (abortControllerRef st) (clientRef st)
    (timer st) (tasks st).

Definition setError (v : option string) (st : State) : State :=
  mkState (stocks st) (isConnected st) v (filter st) (sortBy st)
    (lastUpdate st) (messageCount st) (abortControllerRef st) (clientRef st)
    (timer st) (tasks st).

Definition setFilter (v : string) (st : State) : State :=
  mkState (stocks st) (isConnected st) (error st) v (sortBy st)
    (lastUpdate st) (messageCount st) (abortControllerRef st) (clientRef st)
    (timer st) (tasks st).

Definition setSortBy (v : string) (st : State) : State :=
  mkState (stocks st) (isConnected st) (error st) (filter st) v
    (lastUpdate st) (messageCount st) (abortControllerRef st) (clientRef st)
    (timer st) (tasks st).

Definition setLastUpdate (v : option Date) (st : State) : State :=
  mkState (stocks st) (isConnected st) (error st) (filter st) (sortBy st)
    v (messageCount st) (abortControllerRef st) (clientRef st)
    (timer st) (tasks st).

Definition setMessageCount (v : nat) (st : State) : State :=
  mkState (stocks st) (isConnected st) (error st) (filter st) (sortBy st)
    (lastUpdate st) v (abortControllerRef st) (clientRef st)
    (timer st) (tasks st).

Definition setAbortControllerRef (v : option nat) (st : State) : State :=
  mkState (stocks st) (isConnected st) (error st) (filter st) (sortBy st)
    (lastUpdate st) (messageCount st) v (clientRef st)
    (timer st) (tasks st).

Definition setClientRef (v : option DataStreamClient) (st : State) : State :=
  mkState (stocks st) (isConnected st) (error st) (filter st) (sortBy st)
    (lastUpdate st) (messageCount st) (abortControllerRef st) v
    (timer st) (tasks st).

Definition setTimer (v : option (string * string)) (st : State) : State :=
  mkState (stocks st) (isConnected st) (error st) (filter st) (sortBy st)
    (lastUpdate st) (messageCount st) (abortControllerRef st) (clientRef st)
    v (tasks st).

Definition setTasks (v : list Task) (st : State) : State :=
  mkState (stocks st) (isConnected st) (error st) (filter st) (sortBy st)
    (lastUpdate st) (messageCount st) (abortControllerRef st) (clientRef st)
    (timer st) v.

(** ** [connectToStream] (lines 39-103) *)

(** Lines 40-66: the synchronous part, up to the first suspension of the
    loop.  [f] and [s] are the [filter] and [sortBy] of the render whose
    closure is called. *)
Definition connectToStream (f s : string) (st : State) : State :=
  match clientRef st with
  | None => setError (Some "gRPC client not initialized") st
  | Some _ =>
      let st := setIsConnected true st in
      let st := setError None st in
      let st := setStocks [] st in
      let st := setMessageCount 0 st in
      let id := length (tasks st) in
      let st := setAbortControllerRef (Some id) st in
      setTasks (tasks st ++ [mkTask (FilterRequest.mk f s) false 0 None]) st
  end.

(** [response.code === 200 && response.data] *)
Definition is_success (r : DataStreamResponse.t) : bool :=
  js_eq (DataStreamResponse.code r) (num 200)
  && bool_decide (is_Some (DataStreamResponse.data r)).

Definition bump (t : Task) : Task :=
  mkTask (request t) (aborted t) (S (count t)) (settled t).

(** Lines 69-85: one turn of the loop of task [id], resumed with [r] at
    time [now].  A task that has left its loop is never resumed. *)
Definition loop_body (id : nat) (r : DataStreamResponse.t) (now : Date)
    (st : State) : State :=
  match tasks st !! id with
  | Some t =>
      if pending t then
        let st := setTasks (alter bump id (tasks st)) st in
        let st := setMessageCount (S (count t)) st in
        if js_eq (DataStreamResponse.code r) (num 200) then
          match DataStreamResponse.data r with
          | Some d => setLastUpdate (Some now) (setStocks d st)
          | None => st
          end
        else st
      else st
  | None => st
  end.

(** [err.message || 'An error occurred during streaming'] *)
Definition errorMessage (err : JsError) : string :=
  match err_message err with
  | Some m => if String.eqb m "" then "An error occurred during streaming" else m
  | None => "An error occurred during streaming"
  end.

(** Lines 91-98. *)
Definition catch_clause (o : Outcome) (st : State) : State :=
  match o with
  | Completed => st
  | Threw err =>
      if String.eqb (err_name err) "AbortError" then st
      else setError (Some (errorMessage err)) st
  | ThrewNullish => st
  end.

(** Lines 99-102. *)
Definition finally_clause (st : State) : State :=
  setAbortControllerRef None (setIsConnected false st).

Definition settle (o : Outcome) (t : Task) : Task :=
  mkTask (request t) (aborted t) (count t) (Some o).

(** Lines 87-102: task [id] leaves its loop with outcome [o]. *)
Definition loop_exit (id : nat) (o : Outcome) (st : State) : State :=
  match tasks st !! id with
  | Some t =>
      if pending t then
        let st := setTasks (alter (settle o) id (tasks st)) st in
        finally_clause (catch_clause o st)
      else st
  | None => st
  end.

(** ** [disconnect] (lines 105-110) *)

Definition abort (t : Task) : Task :=
  mkTask (request t) true (count t) (settled t).

Definition disconnect (st : State) : State :=
  match abortControllerRef st with
  | Some id => setTasks (alter abort id (tasks st)) st
  | None => st
  end.

(** ** Effects *)

(** Lines 25-37: the effect that builds the client, and its cleanup. *)
Definition init_effect (st : State) : State :=
  setClientRef (Some (mkClient envoyUrl)) st.

Definition init_cleanup (st : State) : State := disconnect st.

(** Lines 113-126: the effect on [[filter, sortBy]], and its cleanup.  The
    callback handed to [setTimeout] closes over the [connectToStream] of the
    render the effect belongs to.  On the slot the effect writes the new
    callback and the cleanup empties it; [Page.restart_effect] and
    [Page.restart_cleanup] are the same lines with [setTimeout] adding a
    timer and [clearTimeout] removing the one it is given. *)
Definition restart_effect (st : State) : State :=
  let st := if isConnected st then disconnect st else st in
  setTimer (Some (filter st, sortBy st)) st.

Definition restart_cleanup (st : State) : State :=
  disconnect (setTimer None st).

(** The [setTimeout] callback of line 119. *)
Definition timer_fired (st : State) : State :=
  match timer st with
  | Some (f, s) => connectToStream f s (setTimer None st)
  | None => st
  end.

Definition mount (st : State) : State := restart_effect (init_effect st).

Definition unmount (st : State) : State := restart_cleanup (init_cleanup st).

(** [setFilter] and [setSortBy] called in one handler: one render.  The
    effect on [[filter, sortBy]] is run again, after its cleanup, only when
    one of the two dependencies differs from the previous render. *)
Definition setParameters (f s : string) (st : State) : State :=
  if String.eqb f (filter st) && String.eqb s (sortBy st) then st
  else restart_effect (restart_cleanup (setSortBy s (setFilter f st))).

(** The [onChange] handlers of the two selects (lines 202 and 220). *)
Definition onChangeFilter (v : string) (st : State) : State :=
  setParameters v (sortBy st) st.

Definition onChangeSortBy (v : string) (st : State) : State :=
  setParameters (filter st) v st.

(** The button (line 234): [onClick={isConnected ? disconnect : connectToStream}]. *)
Definition onClick (st : State) : State :=
  if isConnected st then disconnect st
  else connectToStream (filter st) (sortBy st) st.

(** ** Runs *)

Inductive Event : Type :=
| Mount
| Unmount
| Click
| Connect
| Disconnect
| SetParameters (f s : string)
| TimerFired
| Response (id : nat) (r : DataStreamResponse.t) (now : Date)
| Ended (id : nat) (o : Outcome).

Definition step (e : Event) (st : State) : State :=
  match e with
  | Mount => mount st
  | Unmount => unmount st
  | Click => onClick st
  | Connect => connectToStream (filter st) (sortBy st) st
  | Disconnect => disconnect st
  | SetParameters f s => setParameters f s st
  | TimerFired => timer_fired st
  | Response id r now => loop_body id r now st
  | Ended id o => loop_exit id o st
  end.

Definition run (tr : list Event) (st : State) : State :=
  fold_left (fun st e => step e st) tr st.

(** The states a run passes through, the starting one first. *)
Fixpoint states (tr : list Event) (st : State) : list State :=
  st :: match tr with
        | [] => []
        | e :: tr' => states tr' (step e st)
        end.

(** Number of tasks still suspended in their loop. *)
Definition pending_count (st : State) : nat :=
  length (List.filter pending (tasks st)).

(** Does the event enter [connectToStream] in this state? *)
Definition calls_connect (e : Event) (st : State) : bool :=
  match e with
  | Connect => true
  | Click => negb (isConnected st)
  | TimerFired => bool_decide (is_Some (timer st))
  | _ => false
  end.

(** Does it open a stream, that is, enter with the client built? *)
Definition opens_session (e : Event) (st : State) : bool :=
  calls_connect e st && bool_decide (is_Some (clientRef st)).

(** [connectToStream] is entered only while [isConnected] is false, the
    test the button makes before it dispatches. *)
Fixpoint guarded (tr : list Event) (st : State) : bool :=
  match tr with
  | [] => true
  | e :: tr' =>
      (negb (calls_connect e st) || negb (isConnected st))
      && guarded tr' (step e st)
  end.

(** Every state of the run has at most one pending task. *)
Fixpoint single_session (tr : list Event) (st : State) : bool :=
  (pending_count st <=? 1)%nat
  && match tr with
     | [] => true
     | e :: tr' => single_session tr' (step e st)
     end.

(** Events of the streams only: no call of the component's interface. *)
Definition is_stream_event (e : Event) : bool :=
  match e with
  | Response _ _ _ | Ended _ _ => true
  | _ => false
  end.

(** What the presentation layer reads. *)
Definition observable (st : State)
    : list EStockInfo.t * bool * option string * option Date * nat :=
  (stocks st, isConnected st, error st, lastUpdate st, messageCount st).

(** ** Predicates on states *)

(** The task [id] is still suspended in its loop. *)
Definition has_pending (l : list Task) (id : nat) : Prop :=
  ∃ t, l !! id = Some t ∧ pending t = true.

(** The controller of the task [id] was told to abort. *)
Definition is_aborted (l : list Task) (id : nat) : Prop :=
  ∃ t, l !! id = Some t ∧ aborted t = true.

(** The number of pending tasks is what [isConnected] says. *)
Definition in_step (st : State) : Prop :=
  pending_count st = if isConnected st then 1 else 0.

(** While the ref holds a controller, [isConnected] is true, the client was
    built and the task that allocated the controller is still in its loop;
    while it is null, [isConnected] is false. *)
Definition ref_ok (st : State) : Prop :=
  match abortControllerRef st with
  | Some id =>
      isConnected st = true ∧ is_Some (clientRef st)
      ∧ has_pending (tasks st) id
  | None => isConnected st = false
  end.

(** Every task still in its loop has counted what [messageCount] shows. *)
Definition counts_agree (st : State) : Prop :=
  ∀ id t, tasks st !! id = Some t → pending t = true →
          count t = messageCount st.

(** The outcomes of a stream the [catch] clause tells apart: it takes an
    exception named [AbortError] for a cancellation, and handles no
    rejection with [null] or [undefined]. *)
Inductive SessionOutcome : Type :=
| completed
| cancelled
| errored (cause : JsError)
| uncaught.

Definition classify (o : Outcome) : SessionOutcome :=
  match o with
  | Completed => completed
  | Threw err =>
      if String.eqb (err_name err) "AbortError" then cancelled else errored err
  | ThrewNullish => uncaught
  end.

(** ** Sample data *)

Definition bbca : EStockInfo.t :=
  EStockInfo.mk "BBCA" "Bank Central Asia" (num 9500) (num 125) (num 1)
    (num 1200000) (num 11400000000) (num 5400).

Definition tlkm : EStockInfo.t :=
  EStockInfo.mk "TLKM" "Telkom Indonesia" (num 3200) (num (-40)) (num (-1))
    (num 800000) (num 2560000000) (num 3100).

Definition asii : EStockInfo.t :=
  EStockInfo.mk "ASII" "Astra International" (num 5000) zero zero
    (num 500000) (num 2500000000) (num 2000).

(** An instrument whose change is [NaN]. *)
Definition halted : EStockInfo.t :=
  EStockInfo.mk "XXXX" "Halted" (num 100) S754_nan S754_nan zero zero zero.

Definition batch (l : list EStockInfo.t) : DataStreamResponse.t :=
  DataStreamResponse.mk (num 200) "OK" (Some l).

Definition anomaly : DataStreamResponse.t :=
  DataStreamResponse.mk (num 500) "upstream unavailable" None.

Definition abortError : JsError :=
  mkJsError "AbortError" (Some "The operation was aborted.").

Definition networkFault : JsError :=
  mkJsError "RpcError" (Some "Failed to fetch").

(** What the stream of an aborted request is rejected with by the gRPC-web
    transport: not the [AbortError] of [fetch] but an [RpcError] that
    carries its message. *)
Definition rpcAborted : JsError :=
  mkJsError "RpcError" (Some "This operation was aborted").

(** Follows the spec's words, for comparison with [classify]: a stream
    whose cancellation the controller requested ends cancelled, whatever
    the transport rejects it with, and only a stream that was not told to
    abort ends in error. *)
Definition requested_outcome (t : Task) (o : Outcome) : SessionOutcome :=
  match o with
  | Completed => completed
  | Threw err => if aborted t then cancelled else errored err
  | ThrewNullish => if aborted t then cancelled else uncaught
  end.

(** The stream opened by the timer set at mount. *)
Definition streaming : State := run [Mount; TimerFired] initialState.

(** ** Presentation helpers (lines 140-150 and the table rows) *)

Definition getChangeColor (change : number) : string :=
  if js_gt change zero then "text-green-600 bg-green-50"
  else if js_lt change zero then "text-red-600 bg-red-50"
  else "text-gray-600 bg-gray-50".

Definition getChangeIcon (change : number) : string :=
  if js_gt change zero then "▲"
  else if js_lt change zero then "▼"
  else "●".

(** [x || 0] on numbers: a falsy [x] gives the literal [0]. *)
Definition or_zero (x : number) : number :=
  if ToBoolean x then x else zero.

(** What a table row shows for the change of an instrument: the class of
    line 356, the icon of line 357 and the sign prefix of line 358,
    [stock.change && stock.change > 0 ? '+' : '']. *)
Definition rowColor (s : EStockInfo.t) : string :=
  getChangeColor (or_zero (EStockInfo.change s)).

Definition rowIcon (s : EStockInfo.t) : string :=
  getChangeIcon (or_zero (EStockInfo.change s)).

Definition rowPrefix (s : EStockInfo.t) : string :=
  if is_gainer s then "+" else "".

(** Number of instruments of a list whose change has no sign ([NaN]). *)
Fixpoint count_unsigned (l : list EStockInfo.t) : nat :=
  match l with
  | [] => 0
  | s :: l' =>
      (if decide (sign (EStockInfo.change s) = None) then 1 else 0)
      + count_unsigned l'
  end.

(** ** More predicates on states and runs *)

(** A pending timer's callback closes over the current parameters. *)
Definition timer_current (st : State) : Prop :=
  ∀ p, timer st = Some p → p = (filter st, sortBy st).

(** The call [id] exists, was not told to abort, and the ref does not hold
    its controller. *)
Definition out_of_reach (id : nat) (st : State) : Prop :=
  abortControllerRef st ≠ Some id
  ∧ ∃ t, tasks st !! id = Some t ∧ aborted t = false.

(** The batches [rs], each with its time of arrival, received in order on
    the call [id]. *)
Definition deliver (id : nat) (rs : list (DataStreamResponse.t * Date))
    : list Event :=
  map (λ p, Response id p.1 p.2) rs.

(** The last batch of [rs] with code 200 and a payload, if any. *)
Definition last_success (rs : list (DataStreamResponse.t * Date))
    : option (DataStreamResponse.t * Date) :=
  last (List.filter (λ p, is_success p.1) rs).

(** ** The timer table of the page

    [setTimeout] adds a timer to the table of the page and returns its id;
    only [clearTimeout] with that id, or the expiry of the timer, removes
    it.  The cleanup that an effect returns closes over the id of the timer
    that this run of the effect set.  The timers of the component all have
    the delay of 100 ms, so they expire in the order they were set.  React
    runs the effects of a component when it mounts, their cleanups when it
    unmounts, and the cleanup and the effect again when a mounted component
    renders with a changed dependency; it does none of this otherwise.

    [State] keeps of all this one slot, [timer]; here the table is explicit
    and that slot is left alone. *)

Module Page.

Record Timer : Type := mkTimer {
  timer_id : nat;
  callback : string * string
}.

(** The component, the timers set and neither cleared nor expired (the
    oldest first), the id the next [setTimeout] returns, and the [timer]
    that the cleanup of the restart effect closes over ([None] while the
    component is not mounted). *)
Record t : Type := mk {
  component : State;
  queue : list Timer;
  next_id : nat;
  cleanup : option nat
}.

Definition initial : t := mk initialState [] 0 None.

(** A handler that touches no timer. *)
Definition lift (h : State → State) (p : t) : t :=
  mk (h (component p)) (queue p) (next_id p) (cleanup p).

Definition setTimeout (cb : string * string) (p : t) : t :=
  mk (component p) (queue p ++ [mkTimer (next_id p) cb]) (S (next_id p))
    (cleanup p).

Definition clearTimeout (timer : nat) (p : t) : t :=
  mk (component p)
    (List.filter (λ tm, negb (timer_id tm =? timer)) (queue p))
    (next_id p) (cleanup p).

(** Lines 113-121, and the cleanup of lines 122-125 for the timer it closes
    over. *)
Definition restart_effect (p : t) : t :=
  let p := if isConnected (component p) then lift disconnect p else p in
  let timer := next_id p in
  let p := setTimeout (filter (component p), sortBy (component p)) p in
  mk (component p) (queue p) (next_id p) (Some timer).

Definition restart_cleanup (timer : nat) (p : t) : t :=
  lift disconnect (clearTimeout timer p).

Definition mount (p : t) : t :=
  match cleanup p with
  | Some _ => p
  | None => restart_effect (lift init_effect p)
  end.

Definition unmount (p : t) : t :=
  match cleanup p with
  | Some timer =>
      let p := restart_cleanup timer (lift init_cleanup p) in
      mk (component p) (queue p) (next_id p) None
  | None => p
  end.

Definition setParameters (f s : string) (p : t) : t :=
  match cleanup p with
  | Some timer =>
      if String.eqb f (filter (component p))
         && String.eqb s (sortBy (component p))
      then p
      else restart_effect
             (restart_cleanup timer
                (lift (λ st, setSortBy s (setFilter f st)) p))
  | None => p
  end.

(** The expiry of the oldest timer: the callback of line 119. *)
Definition timer_fired (p : t) : t :=
  match queue p with
  | tm :: rest =>
      lift (connectToStream (callback tm).1 (callback tm).2)
        (mk (component p) rest (next_id p) (cleanup p))
  | [] => p
  end.

Definition step (e : Event) (p : t) : t :=
  match e with
  | Mount => mount p
  | Unmount => unmount p
  | Click => lift onClick p
  | Connect => lift (λ st, connectToStream (filter st) (sortBy st) st) p
  | Disconnect => lift disconnect p
  | SetParameters f s => setParameters f s p
  | TimerFired => timer_fired p
  | Response id r now => lift (loop_body id r now) p
  | Ended id o => lift (loop_exit id o) p
  end.

Definition run (tr : list Event) (p : t) : t :=
  fold_left (fun p e => step e p) tr p.

(** What [State] keeps of the table: the callback of the oldest timer. *)
Definition slot (p : t) : State :=
  setTimer (callback <$> head (queue p)) (component p).

(** The events of the run are ones React can deliver: a mount of a
    component that is not mounted, an unmount or a change of parameters of
    one that is. *)
Fixpoint lifecycle (tr : list Event) (p : t) : bool :=
  match tr with
  | [] => true
  | e :: tr' =>
      match e with
      | Mount => negb (bool_decide (is_Some (cleanup p)))
      | Unmount | SetParameters _ _ => bool_decide (is_Some (cleanup p))
      | _ => true
      end
      && lifecycle tr' (step e p)
  end.

(** At most the timer that the registered cleanup would clear is pending,
    and its callback closes over the current parameters. *)
Definition timers_ok (p : t) : Prop :=
  queue p = []
  ∨ ∃ timer, cleanup p = Some timer
             ∧ queue p = [mkTimer timer (filter (component p),
                                         sortBy (component p))].

Definition page_ok (p : t) : Prop :=
  ref_ok (component p) ∧ timers_ok p
  ∧ (is_Some (cleanup p) → is_Some (clientRef (component p))).

End Page.

(** What the events between two expiries keep, be they changes of
    parameters, batches or ends of streams: the page stays mounted, no call
    is opened, the client is as it was, a call told to abort stays so, and a
    pending timer stays pending. *)
Definition window (p q : Page.t) : Prop :=
  is_Some (Page.cleanup q) ∧ Page.timers_ok q
  ∧ length (tasks (Page.component q)) = length (tasks (Page.component p))
  ∧ clientRef (Page.component q) = clientRef (Page.component p)
  ∧ (∀ id, is_aborted (tasks (Page.component p)) id →
           is_aborted (tasks (Page.component q)) id)
  ∧ (Page.queue p ≠ [] → Page.queue q ≠ []).

(** The ways an event can change what is shown. *)
Inductive Shown (e : Event) (st : State) : Prop :=
| shown_same :
    observable (step e st) = observable st → Shown e st
| shown_opened :
    opens_session e st = true →
    observable (step e st) = ([], true, None, lastUpdate st, 0) →
    Shown e st
| shown_no_client :
    calls_connect e st = true → clientRef st = None →
    observable (step e st)
    = (stocks st, isConnected st, Some "gRPC client not initialized",
       lastUpdate st, messageCount st) →
    Shown e st
| shown_batch id r now t :
    e = Response id r now → tasks st !! id = Some t → pending t = true →
    observable (step e st)
    = (if is_success r then default [] (DataStreamResponse.data r)
       else stocks st,
       isConnected st, error st,
       if is_success r then Some now else lastUpdate st,
       S (count t)) →
    Shown e st
| shown_ended id o t :
    e = Ended id o → tasks st !! id = Some t → pending t = true →
    observable (step e st)
    = (stocks st, false,
       match classify o with
       | errored cause => Some (errorMessage cause)
       | _ => error st
       end,
       lastUpdate st, messageCount st) →
    Shown e st.

(** * Properties *)

(** Closes a case in which the event is known to open no stream although
    it enters [connectToStream] with the client built. *)
Ltac client_built Ho := exfalso; simpl in Ho; discriminate Ho.

(** ** Numbers and statistics *)

Lemma gt_zero_truthy (x : number) : js_gt x zero = true → ToBoolean x = true.
Proof. by destruct x as [[]|[]| |[] ? ?]. Qed.

Lemma lt_zero_truthy (x : number) : js_lt x zero = true → ToBoolean x = true.
Proof. by destruct x as [[]|[]| |[] ? ?]. Qed.

Lemma is_gainer_sign (s : EStockInfo.t) :
  is_gainer s = bool_decide (sign (EStockInfo.change s) = Some Positive).
Proof.
  unfold is_gainer. destruct (EStockInfo.change s) as [[]|[]| |[] ? ?]; done.
Qed.

Lemma is_loser_sign (s : EStockInfo.t) :
  is_loser s = bool_decide (sign (EStockInfo.change s) = Some Negative).
Proof.
  unfold is_loser. destruct (EStockInfo.change s) as [[]|[]| |[] ? ?]; done.
Qed.

Lemma is_unchanged_sign (s : EStockInfo.t) :
  is_unchanged s = bool_decide (sign (EStockInfo.change s) = Some Zero).
Proof.
  unfold is_unchanged. destruct (EStockInfo.change s) as [[]|[]| |[] ? ?]; done.
Qed.

Lemma filter_length_count_sign (p : EStockInfo.t → bool) (sg : Sign) :
  (∀ s, p s = bool_decide (sign (EStockInfo.change s) = Some sg)) →
  ∀ l, length (List.filter p l) = count_sign sg l.
Proof.
  intros Hp l. induction l as [|s l IH]; [done|].
  simpl. rewrite Hp. unfold bool_decide.
  destruct (decide_rel _ _ _) as [Hs|Hs];
    destruct (decide _) as [Hd|Hd]; try done; simpl; by rewrite IH.
Qed.

(** C9: for every displayed list, [total] is its length and [gainers],
    [losers] and [unchanged] are the numbers of instruments whose change is
    positive, negative and zero. *)
Theorem stats_counts (l : list EStockInfo.t) :
  total (stats l) = length l
  ∧ gainers (stats l) = count_sign Positive l
  ∧ losers (stats l) = count_sign Negative l
  ∧ unchanged (stats l) = count_sign Zero l.
Proof.
  unfold stats; simpl. split; [done|].
  split; [apply filter_length_count_sign, is_gainer_sign|].
  split; [apply filter_length_count_sign, is_loser_sign|].
  apply filter_length_count_sign, is_unchanged_sign.
Qed.

Lemma stats_counts_aux (l : list EStockInfo.t) :
  total (stats l) = length l
  ∧ gainers (stats l) = count_sign Positive l
  ∧ losers (stats l) = count_sign Negative l
  ∧ unchanged (stats l) = count_sign Zero l.
Proof.
  unfold stats; simpl. split; [done|].
  split; [apply filter_length_count_sign, is_gainer_sign|].
  split; [apply filter_length_count_sign, is_loser_sign|].
  apply filter_length_count_sign, is_unchanged_sign.
Qed.

(** ** The task table *)

Lemma pending_bump (t : Task) : pending (bump t) = pending t.
Proof. done. Qed.

Lemma pending_abort (t : Task) : pending (abort t) = pending t.
Proof. done. Qed.

Lemma pending_settle (o : Outcome) (t : Task) : pending (settle o t) = false.
Proof. done. Qed.

Lemma filter_pending_alter (f : Task → Task) (i : nat) (l : list Task) :
  (∀ t, pending (f t) = pending t) →
  length (List.filter pending (alter f i l)) = length (List.filter pending l).
Proof.
  intros Hf. revert i. induction l as [|t l IH]; intros [|i]; simpl; try done.
  - rewrite Hf. by destruct (pending t).
  - change (list_alter f i l) with (alter f i l).
    destruct (pending t); simpl; by rewrite (IH i).
Qed.

Lemma filter_pending_settle (o : Outcome) (i : nat) (l : list Task) (t : Task) :
  l !! i = Some t → pending t = true →
  length (List.filter pending l)
  = S (length (List.filter pending (alter (settle o) i l))).
Proof.
  revert i. induction l as [|t' l IH]; intros [|i] Hl Ht; simpl in *; try done.
  - injection Hl as ->. by rewrite Ht.
  - change (list_alter (settle o) i l) with (alter (settle o) i l).
    pose proof (IH i Hl Ht). destruct (pending t'); simpl; lia.
Qed.

Lemma filter_pending_app (l1 l2 : list Task) :
  length (List.filter pending (l1 ++ l2))
  = length (List.filter pending l1) + length (List.filter pending l2).
Proof. by rewrite List.filter_app, length_app. Qed.

Lemma filter_pending_lookup (l : list Task) (i : nat) (t : Task) :
  l !! i = Some t → pending t = true → 1 ≤ length (List.filter pending l).
Proof.
  revert i. induction l as [|t' l IH]; intros [|i] Hl Ht; simpl in *; try done.
  - injection Hl as ->. rewrite Ht. simpl. lia.
  - specialize (IH i Hl Ht). destruct (pending t'); simpl; lia.
Qed.

(** With at most one pending task, two pending entries are the same one. *)
Lemma filter_pending_unique (l : list Task) (i j : nat) (t u : Task) :
  length (List.filter pending l) ≤ 1 →
  l !! i = Some t → pending t = true →
  l !! j = Some u → pending u = true → i = j.
Proof.
  revert i j. induction l as [|t' l IH]; intros [|i] [|j] Hn Hi Ht Hj Hu;
    simpl in *; try done.
  - injection Hi as ->. rewrite Ht in Hn. simpl in Hn.
    pose proof (filter_pending_lookup l j u Hj Hu). lia.
  - injection Hj as ->. rewrite Hu in Hn. simpl in Hn.
    pose proof (filter_pending_lookup l i t Hi Ht). lia.
  - f_equal. apply (IH i j); try done. destruct (pending t'); simpl in Hn; lia.
Qed.

(** ** What each handler does to the task count *)

Lemma pending_count_disconnect (st : State) :
  pending_count (disconnect st) = pending_count st.
Proof.
  unfold disconnect, pending_count. destruct (abortControllerRef st); [|done].
  simpl. apply filter_pending_alter, pending_abort.
Qed.

Lemma pending_count_connect (f s : string) (st : State) :
  pending_count (connectToStream f s st)
  = match clientRef st with
    | Some _ => S (pending_count st)
    | None => pending_count st
    end.
Proof.
  unfold connectToStream, pending_count. destruct (clientRef st); [|done].
  simpl. rewrite filter_pending_app. simpl. lia.
Qed.

Lemma pending_count_loop_body id r now (st : State) :
  pending_count (loop_body id r now st) = pending_count st.
Proof.
  unfold loop_body, pending_count.
  destruct (tasks st !! id) as [t|]; [|done].
  destruct (pending t); [|done].
  destruct (js_eq _ _); [destruct (DataStreamResponse.data r)|]; simpl;
    apply filter_pending_alter, pending_bump.
Qed.

Lemma pending_count_restart_effect (st : State) :
  pending_count (restart_effect st) = pending_count st.
Proof.
  unfold restart_effect. destruct (isConnected st); [|done].
  apply pending_count_disconnect.
Qed.

Lemma pending_count_restart_cleanup (st : State) :
  pending_count (restart_cleanup st) = pending_count st.
Proof. unfold restart_cleanup. by rewrite pending_count_disconnect. Qed.

Lemma pending_count_setParameters (f s : string) (st : State) :
  pending_count (setParameters f s st) = pending_count st.
Proof.
  unfold setParameters. destruct (_ && _); [done|].
  by rewrite pending_count_restart_effect, pending_count_restart_cleanup.
Qed.

Lemma pending_count_mount (st : State) :
  pending_count (mount st) = pending_count st.
Proof. unfold mount. by rewrite pending_count_restart_effect. Qed.

Lemma pending_count_unmount (st : State) :
  pending_count (unmount st) = pending_count st.
Proof.
  unfold unmount, init_cleanup.
  by rewrite pending_count_restart_cleanup, pending_count_disconnect.
Qed.

(** ** [isConnected] through the handlers *)

Lemma isConnected_disconnect (st : State) :
  isConnected (disconnect st) = isConnected st.
Proof. unfold disconnect. by destruct (abortControllerRef st). Qed.

Lemma isConnected_restart_effect (st : State) :
  isConnected (restart_effect st) = isConnected st.
Proof.
  unfold restart_effect. simpl. destruct (isConnected st) eqn:E; [|done].
  by rewrite isConnected_disconnect.
Qed.

Lemma isConnected_restart_cleanup (st : State) :
  isConnected (restart_cleanup st) = isConnected st.
Proof. unfold restart_cleanup. by rewrite isConnected_disconnect. Qed.

Lemma isConnected_setParameters (f s : string) (st : State) :
  isConnected (setParameters f s st) = isConnected st.
Proof.
  unfold setParameters. destruct (_ && _); [done|].
  by rewrite isConnected_restart_effect, isConnected_restart_cleanup.
Qed.

Lemma isConnected_mount (st : State) : isConnected (mount st) = isConnected st.
Proof. unfold mount. by rewrite isConnected_restart_effect. Qed.

Lemma isConnected_unmount (st : State) :
  isConnected (unmount st) = isConnected st.
Proof.
  unfold unmount, init_cleanup.
  by rewrite isConnected_restart_cleanup, isConnected_disconnect.
Qed.

Lemma isConnected_loop_body id r now (st : State) :
  isConnected (loop_body id r now st) = isConnected st.
Proof.
  unfold loop_body. destruct (tasks st !! id) as [t|]; [|done].
  destruct (pending t); [|done].
  by destruct (js_eq _ _); [destruct (DataStreamResponse.data r)|].
Qed.

Lemma isConnected_connect (f s : string) (st : State) :
  isConnected (connectToStream f s st)
  = match clientRef st with Some _ => true | None => isConnected st end.
Proof. unfold connectToStream. by destruct (clientRef st). Qed.

Lemma isConnected_loop_exit id o (st : State) (t : Task) :
  tasks st !! id = Some t → pending t = true →
  isConnected (loop_exit id o st) = false.
Proof. intros Hl Ht. unfold loop_exit. by rewrite Hl, Ht. Qed.

Lemma pending_count_loop_exit id o (st : State) (t : Task) :
  tasks st !! id = Some t → pending t = true →
  pending_count st = S (pending_count (loop_exit id o st)).
Proof.
  intros Hl Ht. unfold loop_exit, pending_count. rewrite Hl, Ht. simpl.
  rewrite (filter_pending_settle o id (tasks st) t Hl Ht). f_equal.
  destruct o as [|err|]; simpl; [done| |done]. by destruct (String.eqb _ _).
Qed.

Lemma loop_exit_idle id o (st : State) :
  (∀ t, tasks st !! id = Some t → pending t = false) →
  loop_exit id o st = st.
Proof.
  intros H. unfold loop_exit. destruct (tasks st !! id) as [t|] eqn:E; [|done].
  by rewrite (H t eq_refl).
Qed.

(** ** Runs *)

Lemma run_app (tr1 tr2 : list Event) (st : State) :
  run (tr1 ++ tr2) st = run tr2 (run tr1 st).
Proof. apply fold_left_app. Qed.

Lemma run_cons (e : Event) (tr : list Event) (st : State) :
  run (e :: tr) st = run tr (step e st).
Proof. done. Qed.

Lemma run_snoc (tr : list Event) (e : Event) (st : State) :
  run (tr ++ [e]) st = step e (run tr st).
Proof. by rewrite run_app. Qed.

Lemma states_last (tr : list Event) (st : State) :
  last (states tr st) = Some (run tr st).
Proof.
  revert st. induction tr as [|e tr IH]; intros st; [done|].
  rewrite run_cons, <- IH. simpl. by destruct tr.
Qed.

(** An invariant of every step holds along every run. *)
Lemma states_invariant (P : State → Prop) :
  (∀ e st, P st → P (step e st)) →
  ∀ tr st, P st → Forall P (states tr st).
Proof.
  intros Hstep tr. induction tr as [|e tr IH]; intros st Hst; simpl.
  - by constructor.
  - constructor; [done|]. apply IH, Hstep, Hst.
Qed.

Lemma run_invariant (P : State → Prop) :
  (∀ e st, P st → P (step e st)) →
  ∀ tr st, P st → P (run tr st).
Proof.
  intros Hstep tr. induction tr as [|e tr IH]; intros st Hst; [done|].
  rewrite run_cons. apply IH, Hstep, Hst.
Qed.

(** An invariant of the steps that pass the test holds along guarded runs. *)
Lemma guarded_states_invariant (P : State → Prop) :
  (∀ e st, P st →
     calls_connect e st = false ∨ isConnected st = false → P (step e st)) →
  ∀ tr st, P st → guarded tr st = true → Forall P (states tr st).
Proof.
  intros Hstep tr. induction tr as [|e tr IH]; intros st Hst Hg; simpl in *.
  - by constructor.
  - apply andb_true_iff in Hg as [Hg1 Hg2]. constructor; [done|].
    apply IH; [|done]. apply Hstep; [done|].
    apply orb_true_iff in Hg1 as [H|H]; apply negb_true_iff in H; auto.
Qed.

(** ** The test of the button keeps one stream at a time *)

Lemma in_step_connect (f s : string) (st : State) :
  in_step st → isConnected st = false → in_step (connectToStream f s st).
Proof.
  unfold in_step. intros H Hc.
  rewrite pending_count_connect, isConnected_connect, H, Hc.
  by destruct (clientRef st).
Qed.

Lemma in_step_loop_exit id o (st : State) :
  in_step st → in_step (loop_exit id o st).
Proof.
  unfold in_step. intros H.
  destruct (tasks st !! id) as [t|] eqn:Hl.
  - destruct (pending t) eqn:Ht.
    + rewrite (isConnected_loop_exit id o st t Hl Ht).
      pose proof (pending_count_loop_exit id o st t Hl Ht).
      destruct (isConnected st); lia.
    + rewrite loop_exit_idle; [done|]. intros t' Ht'. congruence.
  - rewrite loop_exit_idle; [done|]. intros t' Ht'. congruence.
Qed.

Lemma in_step_step (e : Event) (st : State) :
  in_step st →
  calls_connect e st = false ∨ isConnected st = false →
  in_step (step e st).
Proof.
  intros H Hg. destruct e; simpl in *.
  - unfold in_step. by rewrite pending_count_mount, isConnected_mount.
  - unfold in_step. by rewrite pending_count_unmount, isConnected_unmount.
  - unfold onClick. destruct (isConnected st) eqn:Hc.
    + unfold in_step in *.
      rewrite pending_count_disconnect, isConnected_disconnect. exact H.
    + by apply in_step_connect.
  - destruct Hg as [Hg|Hg]; [done|]. by apply in_step_connect.
  - unfold in_step. by rewrite pending_count_disconnect, isConnected_disconnect.
  - unfold in_step.
    by rewrite pending_count_setParameters, isConnected_setParameters.
  - unfold timer_fired. destruct (timer st) as [[f s]|] eqn:Ht; [|done].
    destruct Hg as [Hg|Hg]; [done|]. apply in_step_connect; [|done].
    exact H.
  - unfold in_step. by rewrite pending_count_loop_body, isConnected_loop_body.
  - by apply in_step_loop_exit.
Qed.

Lemma in_step_initial : in_step initialState.
Proof. done. Qed.

(** C1, as amended: along every run in which [connectToStream] is entered
    only while [isConnected] is false (the test of the button), every state
    has at most one pending stream, and has one exactly when [isConnected]
    is true. *)
Theorem guarded_at_most_one_pending (tr : list Event) :
  guarded tr initialState = true →
  Forall (λ st, pending_count st ≤ 1
                ∧ (isConnected st = true ↔ pending_count st = 1))
         (states tr initialState).
Proof.
  intros Hg.
  eapply Forall_impl;
    [apply (guarded_states_invariant in_step in_step_step tr initialState
              in_step_initial Hg)|].
  intros st H. unfold in_step in H. rewrite H.
  destruct (isConnected st); split; try lia; split; done.
Qed.

(** C1 as stated fails: [connectToStream] has no guard of its own, and two
    calls in a row leave two streams pending. *)
Lemma connect_twice_two_pending :
  pending_count (run [Mount; Connect; Connect] initialState) = 2
  ∧ ¬ pending_count (run [Mount; Connect; Connect] initialState) ≤ 1.
Proof. split; [reflexivity|]. vm_compute. lia. Qed.

(** The same state is reached through the rendered controls alone: the
    timer set at mount fires after the button opened a stream. *)
Example click_then_timer_two_pending :
  guarded [Mount; Click; TimerFired] initialState = false
  ∧ pending_count (run [Mount; Click; TimerFired] initialState) = 2.
Proof. split; reflexivity. Qed.

(** ** The reference and the task it names *)

Lemma has_pending_alter (f : Task → Task) (i id : nat) (l : list Task) :
  (∀ t, pending (f t) = pending t) →
  has_pending l id → has_pending (alter f i l) id.
Proof.
  intros Hf (t & Hl & Ht). unfold has_pending.
  rewrite list_lookup_alter. case_decide as Hi.
  - subst i. rewrite Hl. exists (f t). by rewrite Hf.
  - by exists t.
Qed.

Lemma has_pending_count (l : list Task) (id : nat) :
  has_pending l id → 1 ≤ length (List.filter pending l).
Proof. intros (t & Hl & Ht). by eapply filter_pending_lookup. Qed.

Lemma ref_ok_disconnect (st : State) : ref_ok st → ref_ok (disconnect st).
Proof.
  unfold ref_ok, disconnect.
  destruct (abortControllerRef st) as [id|] eqn:E; simpl; rewrite ?E; [|done].
  intros (? & ? & ?). repeat split; try done.
  by apply has_pending_alter.
Qed.

Lemma ref_ok_connect (f s : string) (st : State) :
  ref_ok st → ref_ok (connectToStream f s st).
Proof.
  unfold ref_ok, connectToStream.
  destruct (clientRef st) as [c|] eqn:Hc; simpl; [|by rewrite Hc].
  intros _. rewrite Hc. repeat split; [by eexists|].
  exists (mkTask (FilterRequest.mk f s) false 0 None).
  split; [by apply list_lookup_middle|done].
Qed.

Lemma ref_ok_loop_body id r now (st : State) :
  ref_ok st → ref_ok (loop_body id r now st).
Proof.
  unfold loop_body. destruct (tasks st !! id) as [t|]; [|done].
  destruct (pending t); [|done].
  intros H.
  assert (ref_ok (setMessageCount (S (count t))
                    (setTasks (alter bump id (tasks st)) st))) as H'.
  { unfold ref_ok in *. simpl.
    destruct (abortControllerRef st); [|done].
    destruct H as (? & ? & ?). repeat split; try done.
    by apply has_pending_alter. }
  by destruct (js_eq _ _); [destruct (DataStreamResponse.data r)|].
Qed.

Lemma ref_ok_loop_exit id o (st : State) :
  ref_ok st → ref_ok (loop_exit id o st).
Proof.
  unfold loop_exit. destruct (tasks st !! id) as [t|]; [|done].
  destruct (pending t); [|done].
  intros _. unfold ref_ok, finally_clause. done.
Qed.

Lemma ref_ok_restart_effect (st : State) :
  ref_ok st → ref_ok (restart_effect st).
Proof.
  intros H. unfold restart_effect.
  assert (ref_ok (if isConnected st then disconnect st else st)) as H'.
  { destruct (isConnected st); [by apply ref_ok_disconnect|done]. }
  exact H'.
Qed.

Lemma ref_ok_restart_cleanup (st : State) :
  ref_ok st → ref_ok (restart_cleanup st).
Proof. intros H. unfold restart_cleanup. by apply ref_ok_disconnect. Qed.

Lemma ref_ok_step (e : Event) (st : State) : ref_ok st → ref_ok (step e st).
Proof.
  intros H. destruct e; simpl.
  - unfold mount. apply ref_ok_restart_effect.
    unfold ref_ok, init_effect in *. simpl.
    destruct (abortControllerRef st); [|done].
    destruct H as (? & ? & ?). by repeat split.
  - unfold unmount, init_cleanup.
    by apply ref_ok_restart_cleanup, ref_ok_disconnect.
  - unfold onClick.
    destruct (isConnected st); [apply ref_ok_disconnect|apply ref_ok_connect];
      done.
  - by apply ref_ok_connect.
  - by apply ref_ok_disconnect.
  - unfold setParameters. destruct (_ && _); [done|].
    by apply ref_ok_restart_effect, ref_ok_restart_cleanup.
  - unfold timer_fired. destruct (timer st) as [[f s]|]; [|done].
    by apply ref_ok_connect.
  - by apply ref_ok_loop_body.
  - by apply ref_ok_loop_exit.
Qed.

Lemma ref_ok_run (tr : list Event) : ref_ok (run tr initialState).
Proof. by apply run_invariant; [apply ref_ok_step|]. Qed.

(** ** [disconnect] *)

Lemma observable_disconnect (st : State) :
  observable (disconnect st) = observable st.
Proof. unfold disconnect. by destruct (abortControllerRef st). Qed.

Lemma abort_abort (t : Task) : abort (abort t) = abort t.
Proof. done. Qed.

Lemma alter_abort_twice (id : nat) (l : list Task) :
  alter abort id (alter abort id l) = alter abort id l.
Proof.
  revert id. induction l as [|t l IH]; intros [|id]; simpl; try done.
  f_equal. apply (IH id).
Qed.

Lemma disconnect_disconnect (st : State) :
  disconnect (disconnect st) = disconnect st.
Proof.
  unfold disconnect. destruct (abortControllerRef st) as [id|] eqn:E; simpl.
  - rewrite E. simpl. by rewrite alter_abort_twice.
  - by rewrite E.
Qed.

(** C8: [disconnect] is idempotent on every state; it changes nothing the
    presentation reads (list, counters, flags); and in every reachable state
    without a pending stream it changes nothing at all. *)
Theorem disconnect_idempotent_frame (st : State) (tr : list Event) :
  disconnect (disconnect st) = disconnect st
  ∧ observable (disconnect st) = observable st
  ∧ stats (stocks (disconnect st)) = stats (stocks st)
  ∧ (abortControllerRef st = None → disconnect st = st)
  ∧ (pending_count (run tr initialState) = 0 →
     disconnect (run tr initialState) = run tr initialState).
Proof.
  split; [apply disconnect_disconnect|].
  split; [apply observable_disconnect|].
  split; [unfold disconnect; by destruct (abortControllerRef st)|].
  split; [intros H; unfold disconnect; by rewrite H|].
  intros H0. pose proof (ref_ok_run tr) as Hok.
  unfold ref_ok in Hok. unfold disconnect.
  destruct (abortControllerRef (run tr initialState)) as [id|]; [|done].
  destruct Hok as (_ & _ & Hp). apply has_pending_count in Hp.
  unfold pending_count in H0. lia.
Qed.

Lemma isConnected_stays_true (e : Event) (st : State) :
  is_stream_event e = false ∨ (∃ id r now, e = Response id r now) →
  isConnected st = true → isConnected (step e st) = true.
Proof.
  intros He Hc. destruct e; cbn [step].
  - by rewrite isConnected_mount.
  - by rewrite isConnected_unmount.
  - unfold onClick. by rewrite Hc, isConnected_disconnect.
  - rewrite isConnected_connect. by destruct (clientRef st).
  - by rewrite isConnected_disconnect.
  - by rewrite isConnected_setParameters.
  - unfold timer_fired. destruct (timer st) as [[f s]|]; [|done].
    rewrite isConnected_connect. simpl. by destruct (clientRef st).
  - by rewrite isConnected_loop_body.
  - destruct He as [He|(? & ? & ? & He)]; done.
Qed.

(** C10: [disconnect] leaves [isConnected], the error, the message count,
    the last update and the displayed list as they are; and whenever a step
    takes [isConnected] from true to false, that step is the exit of a
    pending task from its loop, whose [finally] clause also clears the ref. *)
Theorem disconnect_frame_finalization_only (st : State) (e : Event) :
  (isConnected (disconnect st) = isConnected st
   ∧ error (disconnect st) = error st
   ∧ messageCount (disconnect st) = messageCount st
   ∧ lastUpdate (disconnect st) = lastUpdate st
   ∧ stocks (disconnect st) = stocks st)
  ∧ (isConnected st = true → isConnected (step e st) = false →
     ∃ id o, e = Ended id o ∧ has_pending (tasks st) id
             ∧ abortControllerRef (step e st) = None).
Proof.
  split.
  - unfold disconnect. by destruct (abortControllerRef st).
  - intros Hc Hc'. destruct e as [| | | | | | |id r now|id o];
      try (rewrite isConnected_stays_true in Hc'; [done|by left|done]).
    + rewrite isConnected_stays_true in Hc'; [done| |done].
      right. by exists id, r, now.
    + exists id, o. split; [done|]. simpl in *. unfold loop_exit in *.
      destruct (tasks st !! id) as [t|] eqn:Hl; [|congruence].
      destruct (pending t) eqn:Ht; [|congruence].
      split; [by exists t|done].
Qed.

(** ** Leaving the loop *)

Lemma errorMessage_nonempty (err : JsError) : errorMessage err ≠ "".
Proof.
  unfold errorMessage. destruct (err_message err) as [m|]; [|done].
  destruct (String.eqb m "") eqn:E; [done|]. by apply String.eqb_neq.
Qed.

Lemma errorMessage_given (err : JsError) (m : string) :
  err_message err = Some m → m ≠ "" → errorMessage err = m.
Proof.
  intros H Hm. unfold errorMessage. rewrite H.
  apply String.eqb_neq in Hm. by rewrite Hm.
Qed.

(** What the [catch] and [finally] clauses do for each outcome, as the
    [catch] clause tells them apart (by the name of the exception): an
    exception named [AbortError] and a normal completion leave [error] as it
    was, any other exception sets it to the message of the cause (a fixed
    text when the cause has none), and in every case [isConnected] becomes
    false and the ref is cleared. *)
Lemma loop_exit_by_outcome (st : State) (id : nat) (t : Task) (o : Outcome) :
  tasks st !! id = Some t → pending t = true →
  match classify o with
  | cancelled => error (loop_exit id o st) = error st
  | errored cause =>
      error (loop_exit id o st) = Some (errorMessage cause)
      ∧ errorMessage cause ≠ ""
      ∧ (∀ m, err_message cause = Some m → m ≠ "" → errorMessage cause = m)
  | completed => error (loop_exit id o st) = error st
  | uncaught => error (loop_exit id o st) = error st
  end
  ∧ isConnected (loop_exit id o st) = false
  ∧ abortControllerRef (loop_exit id o st) = None
  ∧ pending_count st = S (pending_count (loop_exit id o st)).
Proof.
  intros Hl Ht.
  split; [|split; [by eapply isConnected_loop_exit|split]].
  - unfold loop_exit, classify. rewrite Hl, Ht.
    destruct o as [|err|]; simpl; [done| |done].
    destruct (String.eqb (err_name err) "AbortError"); simpl; [done|].
    split; [done|]. split; [apply errorMessage_nonempty|].
    apply errorMessage_given.
  - unfold loop_exit. by rewrite Hl, Ht.
  - by eapply pending_count_loop_exit.
Qed.

(** The [catch] clause looks at the name of the exception only, never at
    the controller: whether a stream that was told to abort leaves [error]
    alone depends on what the transport rejects it with. *)
Lemma aborted_stream_error_by_name (st : State) (id : nat) (t : Task)
    (err : JsError) :
  tasks st !! id = Some t → pending t = true → aborted t = true →
  requested_outcome t (Threw err) = cancelled
  ∧ (err_name err = "AbortError" →
     error (loop_exit id (Threw err) st) = error st)
  ∧ (err_name err ≠ "AbortError" →
     error (loop_exit id (Threw err) st) = Some (errorMessage err)).
Proof.
  intros Hl Hp Ha. unfold requested_outcome, loop_exit. rewrite Ha, Hl, Hp.
  split; [done|]. simpl. split.
  - intros ->. done.
  - intros Hn. apply String.eqb_neq in Hn. by rewrite Hn.
Qed.

(** C3 fails on the code: the stream opened at mount is disconnected, so
    its controller is aborted and its outcome is a cancellation, and ends
    with the [RpcError] of an aborted request; the [catch] clause tests the
    name for [AbortError], takes it for a failure and sets [error] to its
    message.  The rest of the claim holds there: [isConnected] becomes
    false and the ref is cleared. *)
Theorem disconnected_stream_sets_error :
  tasks (run [Mount; TimerFired; Disconnect] initialState) !! 0
  = Some (mkTask (FilterRequest.mk "all" "percent_change") true 0 None)
  ∧ requested_outcome
      (mkTask (FilterRequest.mk "all" "percent_change") true 0 None)
      (Threw rpcAborted) = cancelled
  ∧ classify (Threw rpcAborted) = errored rpcAborted
  ∧ error (run [Mount; TimerFired; Disconnect] initialState) = None
  ∧ error (step (Ended 0 (Threw rpcAborted))
             (run [Mount; TimerFired; Disconnect] initialState))
    = Some "This operation was aborted"
  ∧ isConnected (step (Ended 0 (Threw rpcAborted))
                   (run [Mount; TimerFired; Disconnect] initialState))
    = false
  ∧ abortControllerRef (step (Ended 0 (Threw rpcAborted))
                          (run [Mount; TimerFired; Disconnect] initialState))
    = None.
Proof. repeat split; vm_compute; reflexivity. Qed.

(** ** [connectToStream] has no guard *)

(** C2, as amended: with the client built, [connectToStream] clears the
    list, the error and the count and opens a further stream whether or not
    one is pending; with the client not built it only sets the error; the
    button alone keeps it from running while [isConnected] is true, by
    dispatching [disconnect] instead. *)
Theorem connect_unguarded (st : State) (f s : string) :
  (clientRef st = None →
   connectToStream f s st = setError (Some "gRPC client not initialized") st
   ∧ tasks (connectToStream f s st) = tasks st)
  ∧ (is_Some (clientRef st) →
     tasks (connectToStream f s st)
     = tasks st ++ [mkTask (FilterRequest.mk f s) false 0 None]
     ∧ pending_count (connectToStream f s st) = S (pending_count st)
     ∧ abortControllerRef (connectToStream f s st) = Some (length (tasks st))
     ∧ observable (connectToStream f s st)
       = ([], true, None, lastUpdate st, 0))
  ∧ (isConnected st = true → onClick st = disconnect st).
Proof.
  split; [|split].
  - intros H. unfold connectToStream. by rewrite H.
  - intros [c Hc]. rewrite pending_count_connect.
    unfold connectToStream. by rewrite Hc.
  - intros H. unfold onClick. by rewrite H.
Qed.

(** ** The message count *)

Lemma single_session_head (tr : list Event) (st : State) :
  single_session tr st = true → pending_count st ≤ 1.
Proof.
  destruct tr; simpl; intros H; apply andb_true_iff in H as [H _];
    by apply Nat.leb_le.
Qed.

Lemma single_session_tail (e : Event) (tr : list Event) (st : State) :
  single_session (e :: tr) st = true → single_session tr (step e st) = true.
Proof. simpl. intros H. by apply andb_true_iff in H as [_ H]. Qed.

Lemma single_session_app (tr1 tr2 : list Event) (st : State) :
  single_session (tr1 ++ tr2) st = true →
  single_session tr1 st = true ∧ single_session tr2 (run tr1 st) = true.
Proof.
  revert st. induction tr1 as [|e tr1 IH]; intros st H.
  - split; [|done]. simpl. rewrite andb_true_r. apply Nat.leb_le.
    by eapply single_session_head.
  - change ((e :: tr1) ++ tr2) with (e :: (tr1 ++ tr2)) in H.
    pose proof (single_session_head _ _ H) as Hh.
    apply single_session_tail, IH in H as [H1 H2]. split; [|done].
    simpl. rewrite H1, andb_true_r. by apply Nat.leb_le.
Qed.

(** An invariant of the steps between states with at most one pending task
    holds at the end of every run that stays among such states. *)
Lemma single_session_run_invariant (P : State → Prop) :
  (∀ e st, P st → pending_count st ≤ 1 → pending_count (step e st) ≤ 1 →
           P (step e st)) →
  ∀ tr st, P st → single_session tr st = true → P (run tr st).
Proof.
  intros Hstep tr. induction tr as [|e tr IH]; intros st Hst Hs; [done|].
  rewrite run_cons. pose proof (single_session_head _ _ Hs) as Hh.
  apply single_session_tail in Hs.
  apply IH; [|done]. apply Hstep; [done..|]. by eapply single_session_head.
Qed.

Lemma single_session_Forall (tr : list Event) (st : State) :
  Forall (λ st, pending_count st ≤ 1) (states tr st) →
  single_session tr st = true.
Proof.
  revert st. induction tr as [|e tr IH]; intros st H; simpl in *;
    inversion H as [|? ? H1 H2]; subst;
    apply andb_true_iff; (split; [by apply Nat.leb_le|]); [done|].
  by apply IH.
Qed.

(** Guarded runs keep at most one stream pending. *)
Lemma guarded_single_session (tr : list Event) :
  guarded tr initialState = true → single_session tr initialState = true.
Proof.
  intros Hg. apply single_session_Forall.
  eapply Forall_impl;
    [apply (guarded_states_invariant in_step in_step_step tr initialState
              in_step_initial Hg)|].
  intros st H. unfold in_step in H. rewrite H. destruct (isConnected st); lia.
Qed.

Lemma counts_agree_alter (f : Task → Task) (i : nat) (st st' : State) :
  (∀ t, pending (f t) = pending t) → (∀ t, count (f t) = count t) →
  tasks st' = alter f i (tasks st) → messageCount st' = messageCount st →
  counts_agree st → counts_agree st'.
Proof.
  intros Hp Hc Ht Hm H id t. rewrite Ht, Hm, list_lookup_alter.
  case_decide as Hi.
  - subst i. destruct (tasks st !! id) as [u|] eqn:Hu; [|done].
    simpl. intros [= <-]. rewrite Hp, Hc. intros Hu'. by apply (H id u).
  - intros Hl Hu. by apply (H id t).
Qed.

Lemma counts_agree_disconnect (st : State) :
  counts_agree st → counts_agree (disconnect st).
Proof.
  unfold disconnect. destruct (abortControllerRef st) as [id|]; [|done].
  by apply (counts_agree_alter abort id).
Qed.

Lemma counts_agree_restart_effect (st : State) :
  counts_agree st → counts_agree (restart_effect st).
Proof.
  intros H. unfold restart_effect.
  assert (counts_agree (if isConnected st then disconnect st else st)) as H'.
  { destruct (isConnected st); [by apply counts_agree_disconnect|done]. }
  exact H'.
Qed.

Lemma counts_agree_restart_cleanup (st : State) :
  counts_agree st → counts_agree (restart_cleanup st).
Proof. intros H. unfold restart_cleanup. by apply counts_agree_disconnect. Qed.

Lemma counts_agree_connect (f s : string) (st : State) :
  counts_agree st →
  pending_count (connectToStream f s st) ≤ 1 →
  counts_agree (connectToStream f s st).
Proof.
  intros H. rewrite pending_count_connect. unfold connectToStream.
  destruct (clientRef st) as [c|]; [|done].
  intros Hn id t. simpl. intros [[Hlt Hl]|[_ <-]]%lookup_snoc_Some Hp; [|done].
  pose proof (filter_pending_lookup _ _ _ Hl Hp). unfold pending_count in Hn.
  lia.
Qed.

Lemma counts_agree_loop_body id r now (st : State) :
  counts_agree st → pending_count st ≤ 1 →
  counts_agree (loop_body id r now st).
Proof.
  intros H Hn. unfold loop_body.
  destruct (tasks st !! id) as [t|] eqn:Hl; [|done].
  destruct (pending t) eqn:Ht; [|done].
  assert (counts_agree (setMessageCount (S (count t))
                          (setTasks (alter bump id (tasks st)) st))) as H'.
  { intros id' t'. simpl. rewrite list_lookup_alter. case_decide as Hi.
    - subst id'. rewrite Hl. simpl. by intros [= <-].
    - intros Hl' Ht'. destruct Hi.
      by apply (filter_pending_unique (tasks st) id id' t t'). }
  by destruct (js_eq _ _); [destruct (DataStreamResponse.data r)|].
Qed.

Lemma messageCount_loop_exit id o (st : State) :
  messageCount (loop_exit id o st) = messageCount st.
Proof.
  unfold loop_exit. destruct (tasks st !! id) as [t|]; [|done].
  destruct (pending t); [|done].
  destruct o as [|err|]; simpl; [done| |done].
  by destruct (String.eqb _ _).
Qed.

Lemma tasks_loop_exit id o (st : State) (t : Task) :
  tasks st !! id = Some t → pending t = true →
  tasks (loop_exit id o st) = alter (settle o) id (tasks st).
Proof.
  intros Hl Ht. unfold loop_exit. rewrite Hl, Ht.
  destruct o as [|err|]; simpl; [done| |done]. by destruct (String.eqb _ _).
Qed.

Lemma counts_agree_loop_exit id o (st : State) :
  counts_agree st → counts_agree (loop_exit id o st).
Proof.
  intros H. destruct (tasks st !! id) as [t|] eqn:Hl.
  - destruct (pending t) eqn:Ht.
    + intros id' t'. rewrite messageCount_loop_exit.
      rewrite (tasks_loop_exit id o st t Hl Ht), list_lookup_alter.
      case_decide as Hi; [|apply H]. subst id'. rewrite Hl. simpl.
      by intros [= <-].
    + rewrite loop_exit_idle; [done|]. intros t' Ht'. congruence.
  - rewrite loop_exit_idle; [done|]. intros t' Ht'. congruence.
Qed.

Lemma counts_agree_step (e : Event) (st : State) :
  counts_agree st → pending_count st ≤ 1 → pending_count (step e st) ≤ 1 →
  counts_agree (step e st).
Proof.
  intros H Hn Hn'. destruct e; cbn [step] in *.
  - unfold mount. by apply counts_agree_restart_effect.
  - unfold unmount, init_cleanup.
    by apply counts_agree_restart_cleanup, counts_agree_disconnect.
  - unfold onClick in *. destruct (isConnected st);
      [by apply counts_agree_disconnect|by apply counts_agree_connect].
  - by apply counts_agree_connect.
  - by apply counts_agree_disconnect.
  - unfold setParameters. destruct (_ && _); [done|].
    by apply counts_agree_restart_effect, counts_agree_restart_cleanup.
  - unfold timer_fired in *. destruct (timer st) as [[f s]|]; [|done].
    by apply counts_agree_connect.
  - by apply counts_agree_loop_body.
  - by apply counts_agree_loop_exit.
Qed.

Lemma counts_agree_run (tr : list Event) :
  single_session tr initialState = true →
  counts_agree (run tr initialState).
Proof.
  apply single_session_run_invariant; [apply counts_agree_step|].
  by intros id t.
Qed.

Lemma messageCount_disconnect (st : State) :
  messageCount (disconnect st) = messageCount st.
Proof. unfold disconnect. by destruct (abortControllerRef st). Qed.

Lemma messageCount_restart_effect (st : State) :
  messageCount (restart_effect st) = messageCount st.
Proof.
  unfold restart_effect. simpl. destruct (isConnected st); [|done].
  apply messageCount_disconnect.
Qed.

Lemma messageCount_setParameters (f s : string) (st : State) :
  messageCount (setParameters f s st) = messageCount st.
Proof.
  unfold setParameters. destruct (_ && _); [done|].
  rewrite messageCount_restart_effect. unfold restart_cleanup.
  by rewrite messageCount_disconnect.
Qed.

Lemma messageCount_connect (f s : string) (st : State) :
  messageCount (connectToStream f s st)
  = match clientRef st with Some _ => 0 | None => messageCount st end.
Proof. unfold connectToStream. by destruct (clientRef st). Qed.

Lemma messageCount_loop_body id r now (st : State) (t : Task) :
  tasks st !! id = Some t → pending t = true →
  messageCount (loop_body id r now st) = S (count t).
Proof.
  intros Hl Ht. unfold loop_body. rewrite Hl, Ht.
  by destruct (js_eq _ _); [destruct (DataStreamResponse.data r)|].
Qed.

Lemma loop_body_idle id r now (st : State) :
  (∀ t, tasks st !! id = Some t → pending t = false) →
  loop_body id r now st = st.
Proof.
  intros H. unfold loop_body. destruct (tasks st !! id) as [t|] eqn:E; [|done].
  by rewrite (H t eq_refl).
Qed.

(** A step that opens no stream leaves the count alone, unless it is a turn
    of the loop of a pending task, which publishes that task's count. *)
Lemma messageCount_step (e : Event) (st : State) :
  opens_session e st = false →
  messageCount (step e st) = messageCount st
  ∨ ∃ id r now t, e = Response id r now ∧ tasks st !! id = Some t
                  ∧ pending t = true
                  ∧ messageCount (step e st) = S (count t).
Proof.
  unfold opens_session. intros Ho. destruct e; cbn [step calls_connect] in *.
  - left. unfold mount. by rewrite messageCount_restart_effect.
  - left. unfold unmount, init_cleanup, restart_cleanup.
    rewrite messageCount_disconnect. simpl. apply messageCount_disconnect.
  - left. unfold onClick. destruct (isConnected st); simpl in Ho.
    + apply messageCount_disconnect.
    + rewrite messageCount_connect. destruct (clientRef st); [|done].
      client_built Ho.
  - left. rewrite messageCount_connect. destruct (clientRef st); [|done].
    client_built Ho.
  - left. apply messageCount_disconnect.
  - left. apply messageCount_setParameters.
  - left. unfold timer_fired. destruct (timer st) as [[f s]|]; [|done].
    rewrite messageCount_connect. simpl. destruct (clientRef st); [|done].
    client_built Ho.
  - destruct (tasks st !! id) as [t|] eqn:Hl.
    + destruct (pending t) eqn:Ht.
      * right. exists id, r, now, t. repeat split; try done.
        by apply messageCount_loop_body.
      * left. rewrite loop_body_idle; [done|]. intros t' Ht'. congruence.
    + left. rewrite loop_body_idle; [done|]. intros t' Ht'. congruence.
  - left. apply messageCount_loop_exit.
Qed.

Lemma messageCount_opens (e : Event) (st : State) :
  opens_session e st = true → messageCount (step e st) = 0.
Proof.
  unfold opens_session. intros [Hc Hcl]%andb_true_iff.
  apply bool_decide_eq_true in Hcl as [c Hcl].
  destruct e; cbn [step calls_connect] in *; try done.
  - unfold onClick. apply negb_true_iff in Hc. rewrite Hc.
    by rewrite messageCount_connect, Hcl.
  - by rewrite messageCount_connect, Hcl.
  - apply bool_decide_eq_true in Hc as [[f s] Ht]. unfold timer_fired.
    rewrite Ht, messageCount_connect. simpl. by rewrite Hcl.
Qed.

(** C4, as amended: every batch received on a pending stream sets
    [messageCount] to that stream's own count of batches, which is one more
    than [messageCount] was in every run that has kept at most one stream
    pending; a batch with code 200 and a payload replaces the displayed list
    by the payload and stamps [lastUpdate]; any other batch leaves both as
    they are; and in either case the stream stays pending, with
    [isConnected] and [error] untouched. *)
Theorem response_counts_and_replaces (tr : list Event) (id : nat) (t : Task)
    (r : DataStreamResponse.t) (now : Date) :
  tasks (run tr initialState) !! id = Some t → pending t = true →
  messageCount (step (Response id r now) (run tr initialState)) = S (count t)
  ∧ (single_session tr initialState = true →
     messageCount (step (Response id r now) (run tr initialState))
     = S (messageCount (run tr initialState)))
  ∧ (is_success r = true →
     Some (stocks (step (Response id r now) (run tr initialState)))
     = DataStreamResponse.data r
     ∧ lastUpdate (step (Response id r now) (run tr initialState)) = Some now)
  ∧ (is_success r = false →
     stocks (step (Response id r now) (run tr initialState))
     = stocks (run tr initialState)
     ∧ lastUpdate (step (Response id r now) (run tr initialState))
       = lastUpdate (run tr initialState))
  ∧ has_pending (tasks (step (Response id r now) (run tr initialState))) id
  ∧ isConnected (step (Response id r now) (run tr initialState))
    = isConnected (run tr initialState)
  ∧ error (step (Response id r now) (run tr initialState))
    = error (run tr initialState).
Proof.
  intros Hl Ht. cbn [step].
  split; [by apply messageCount_loop_body|]. split.
  { intros Hs. rewrite (messageCount_loop_body id r now _ t Hl Ht).
    by rewrite (counts_agree_run tr Hs id t Hl Ht). }
  unfold loop_body, is_success. rewrite Hl, Ht.
  assert (has_pending (alter bump id (tasks (run tr initialState))) id) as Hp.
  { apply has_pending_alter; [done|]. by exists t. }
  destruct (js_eq _ _); [destruct (DataStreamResponse.data r) as [d|]|];
    simpl; repeat split; try done.
Qed.

(** C6, as amended: a step that opens a stream sets [messageCount] to 0;
    no other step brings it to 0 from another value; and in a run that keeps
    at most one stream pending no other step lowers it. *)
Theorem messageCount_monotone_reset (tr : list Event) (e : Event) :
  (opens_session e (run tr initialState) = true →
   messageCount (step e (run tr initialState)) = 0)
  ∧ (opens_session e (run tr initialState) = false →
     messageCount (step e (run tr initialState)) = 0 →
     messageCount (run tr initialState) = 0)
  ∧ (single_session (tr ++ [e]) initialState = true →
     opens_session e (run tr initialState) = false →
     messageCount (run tr initialState)
     ≤ messageCount (step e (run tr initialState))).
Proof.
  split; [apply messageCount_opens|]. split.
  - intros Ho H0.
    destruct (messageCount_step e _ Ho) as [H|(id & r & now & t & _ & _ & _ & H)];
      congruence.
  - intros Hs Ho. apply single_session_app in Hs as [Hs _].
    destruct (messageCount_step e _ Ho)
      as [H|(id & r & now & t & _ & Hl & Ht & H)]; [lia|].
    rewrite H, (counts_agree_run tr Hs id t Hl Ht). lia.
Qed.

(** ** The displayed list *)

Lemma loop_body_success id r now (st : State) (d : list EStockInfo.t) :
  has_pending (tasks st) id →
  is_success r = true → DataStreamResponse.data r = Some d →
  stocks (loop_body id r now st) = d
  ∧ has_pending (tasks (loop_body id r now st)) id.
Proof.
  intros (t & Hl & Ht) Hs Hd. unfold loop_body, is_success in *.
  rewrite Hl, Ht, Hd in *. apply andb_true_iff in Hs as [-> _]. simpl.
  split; [done|]. apply has_pending_alter; [done|]. by exists t.
Qed.

Lemma has_pending_connect (f s : string) (st : State) :
  is_Some (clientRef st) →
  has_pending (tasks (connectToStream f s st)) (length (tasks st))
  ∧ stocks (connectToStream f s st) = [].
Proof.
  intros [c Hc]. unfold connectToStream. rewrite Hc. simpl. split; [|done].
  eexists. split; [by apply list_lookup_middle|done].
Qed.

(** C5: after [connectToStream] opened a stream, three batches with code
    200 and payloads [B1], [B2], [B3] received on it in that order take the
    displayed list through exactly the empty list, [B1], [B2], [B3]. *)
Theorem batches_displayed_in_order (st : State) (f s : string)
    (r1 r2 r3 : DataStreamResponse.t) (t1 t2 t3 : Date)
    (B1 B2 B3 : list EStockInfo.t) :
  is_Some (clientRef st) →
  is_success r1 = true → DataStreamResponse.data r1 = Some B1 →
  is_success r2 = true → DataStreamResponse.data r2 = Some B2 →
  is_success r3 = true → DataStreamResponse.data r3 = Some B3 →
  map stocks
    (states [Response (length (tasks st)) r1 t1;
             Response (length (tasks st)) r2 t2;
             Response (length (tasks st)) r3 t3]
       (connectToStream f s st))
  = [[]; B1; B2; B3].
Proof.
  intros Hc Hs1 Hd1 Hs2 Hd2 Hs3 Hd3.
  destruct (has_pending_connect f s st Hc) as [Hp0 E0].
  cbn [states map step].
  destruct (loop_body_success _ r1 t1 _ B1 Hp0 Hs1 Hd1) as [E1 Hp1].
  destruct (loop_body_success _ r2 t2 _ B2 Hp1 Hs2 Hd2) as [E2 Hp2].
  destruct (loop_body_success _ r3 t3 _ B3 Hp2 Hs3 Hd3) as [E3 _].
  by rewrite E0, E1, E2, E3.
Qed.

(** ** Restart after a change of parameters *)

Lemma is_aborted_alter (f : Task → Task) (i id : nat) (l : list Task) :
  (∀ t, aborted t = true → aborted (f t) = true) →
  is_aborted l id → is_aborted (alter f i l) id.
Proof.
  intros Hf (t & Hl & Ht). unfold is_aborted.
  rewrite list_lookup_alter. case_decide as Hi.
  - subst i. rewrite Hl. exists (f t). split; [done|]. by apply Hf.
  - by exists t.
Qed.

Lemma is_aborted_disconnect (id : nat) (st : State) :
  is_aborted (tasks st) id → is_aborted (tasks (disconnect st)) id.
Proof.
  unfold disconnect. destruct (abortControllerRef st) as [i|]; [|done].
  simpl. by apply is_aborted_alter.
Qed.

Lemma length_tasks_disconnect (st : State) :
  length (tasks (disconnect st)) = length (tasks st).
Proof.
  unfold disconnect. destruct (abortControllerRef st) as [i|]; [|done].
  simpl. apply length_alter.
Qed.

Lemma clientRef_disconnect (st : State) :
  clientRef (disconnect st) = clientRef st.
Proof. unfold disconnect. by destruct (abortControllerRef st). Qed.

Lemma disconnect_aborts (id : nat) (st : State) :
  abortControllerRef st = Some id → is_Some (tasks st !! id) →
  is_aborted (tasks (disconnect st)) id.
Proof.
  intros Hr [t Hl]. unfold disconnect, is_aborted. rewrite Hr. simpl.
  rewrite list_lookup_alter_eq, Hl. by exists (abort t).
Qed.

Lemma tasks_disconnect_setTimer (v : option (string * string)) (st : State) :
  tasks (disconnect (setTimer v st)) = tasks (disconnect st).
Proof. unfold disconnect. simpl. by destruct (abortControllerRef st). Qed.

(** What [restart_effect (restart_cleanup _)] leaves of a state. *)
Lemma rerun_effect (st : State) :
  timer (restart_effect (restart_cleanup st)) = Some (filter st, sortBy st)
  ∧ filter (restart_effect (restart_cleanup st)) = filter st
  ∧ sortBy (restart_effect (restart_cleanup st)) = sortBy st
  ∧ length (tasks (restart_effect (restart_cleanup st))) = length (tasks st)
  ∧ clientRef (restart_effect (restart_cleanup st)) = clientRef st
  ∧ (∀ id, is_aborted (tasks (disconnect st)) id →
           is_aborted (tasks (restart_effect (restart_cleanup st))) id).
Proof.
  unfold restart_effect, restart_cleanup.
  assert (∀ s : State, filter (disconnect s) = filter s
                       ∧ sortBy (disconnect s) = sortBy s) as Hfs.
  { intros s. unfold disconnect. by destruct (abortControllerRef s). }
  destruct (Hfs (setTimer None st)) as [Hf Hs].
  destruct (isConnected (disconnect (setTimer None st))); simpl.
  - destruct (Hfs (disconnect (setTimer None st))) as [Hf' Hs'].
    rewrite Hf', Hs', Hf, Hs, !length_tasks_disconnect, !clientRef_disconnect.
    repeat split; try done. intros id H.
    apply is_aborted_disconnect. by rewrite tasks_disconnect_setTimer.
  - rewrite Hf, Hs, length_tasks_disconnect, clientRef_disconnect.
    repeat split; try done. intros id H. by rewrite tasks_disconnect_setTimer.
Qed.

Lemma setParameters_params (f s : string) (st : State) :
  filter (setParameters f s st) = f ∧ sortBy (setParameters f s st) = s.
Proof.
  unfold setParameters.
  destruct (String.eqb f (filter st) && String.eqb s (sortBy st)) eqn:E.
  - apply andb_true_iff in E as [Ef Es]. apply String.eqb_eq in Ef, Es.
    by subst.
  - by destruct (rerun_effect (setSortBy s (setFilter f st)))
      as (_ & -> & -> & _).
Qed.

Lemma setParameters_same (f s : string) (st : State) :
  (f, s) = (filter st, sortBy st) → setParameters f s st = st.
Proof.
  intros [= -> ->]. unfold setParameters. by rewrite !String.eqb_refl.
Qed.

(** * Runs on sample data *)

(** A guarded run: the stream opened at mount receives a batch, is
    disconnected and ends; a change of parameters then opens the next. *)
Lemma guarded_at_most_one_pending_witness :
  guarded [Mount; TimerFired; Response 0 (batch [bbca; tlkm]) 1000%Z;
         Disconnect; Ended 0 (Threw abortError);
         SetParameters "idx30" "volume"; TimerFired;
         Response 1 (batch [asii]) 2000%Z] initialState = true
  ∧ Forall (λ st, pending_count st ≤ 1
                  ∧ (isConnected st = true ↔ pending_count st = 1))
      (states [Mount; TimerFired; Response 0 (batch [bbca; tlkm]) 1000%Z;
               Disconnect; Ended 0 (Threw abortError);
               SetParameters "idx30" "volume"; TimerFired;
               Response 1 (batch [asii]) 2000%Z] initialState).
Proof.
  split; [reflexivity|].
  apply guarded_at_most_one_pending. reflexivity.
Defined.

(** C2 as stated fails: while a stream is pending and shows two
    instruments, [connectToStream] empties the list, resets the count and
    opens a second stream. *)
Lemma connect_while_streaming_restarts :
  pending_count (run [Response 0 (batch [bbca; tlkm]) 1000%Z] streaming) = 1
  ∧ stocks (run [Response 0 (batch [bbca; tlkm]) 1000%Z] streaming)
    = [bbca; tlkm]
  ∧ messageCount (run [Response 0 (batch [bbca; tlkm]) 1000%Z] streaming) = 1
  ∧ pending_count
      (step Connect (run [Response 0 (batch [bbca; tlkm]) 1000%Z] streaming))
    = 2
  ∧ stocks
      (step Connect (run [Response 0 (batch [bbca; tlkm]) 1000%Z] streaming))
    = []
  ∧ messageCount
      (step Connect (run [Response 0 (batch [bbca; tlkm]) 1000%Z] streaming))
    = 0
  ∧ step Connect (run [Response 0 (batch [bbca; tlkm]) 1000%Z] streaming)
    ≠ run [Response 0 (batch [bbca; tlkm]) 1000%Z] streaming.
Proof.
  repeat split; try reflexivity.
  intros H. apply (f_equal messageCount) in H. vm_compute in H. discriminate H.
Qed.

Lemma connect_unguarded_witness :
  (clientRef initialState = None
   ∧ connectToStream "all" "volume" initialState
     = setError (Some "gRPC client not initialized") initialState)
  ∧ (is_Some (clientRef streaming)
     ∧ pending_count streaming = 1
     ∧ pending_count (connectToStream "idx30" "volume" streaming) = 2)
  ∧ (isConnected streaming = true ∧ onClick streaming = disconnect streaming).
Proof.
  destruct (connect_unguarded initialState "all" "volume") as (H1 & _ & _).
  destruct (connect_unguarded streaming "idx30" "volume") as (_ & H2 & H3).
  split; [split; [reflexivity|apply H1; reflexivity]|].
  split; [|split; [reflexivity|apply H3; reflexivity]].
  split; [eexists; reflexivity|]. split; [reflexivity|].
  destruct H2 as (_ & -> & _); [eexists; reflexivity|reflexivity].
Defined.

Example loop_exit_by_outcome_sample :
  error (loop_exit 0 (Threw abortError) streaming) = None
  ∧ error (loop_exit 0 (Threw networkFault) streaming) = Some "Failed to fetch"
  ∧ error (loop_exit 0 (Threw (mkJsError "Error" None)) streaming)
    = Some "An error occurred during streaming"
  ∧ error (loop_exit 0 Completed streaming) = None
  ∧ isConnected (loop_exit 0 (Threw abortError) streaming) = false
  ∧ abortControllerRef (loop_exit 0 (Threw networkFault) streaming) = None.
Proof.
  pose proof (loop_exit_by_outcome streaming 0
                (mkTask (FilterRequest.mk "all" "percent_change") false 0 None)
                (Threw networkFault) eq_refl eq_refl) as (_ & _ & H & _).
  repeat (split; [reflexivity|]). exact H.
Qed.

Lemma response_counts_and_replaces_witness :
  single_session [Mount; TimerFired] initialState = true
  ∧ messageCount (step (Response 0 (batch [bbca; tlkm]) 1000%Z) streaming)
    = S (messageCount streaming)
  ∧ stocks (step (Response 0 (batch [bbca; tlkm]) 1000%Z) streaming)
    = [bbca; tlkm]
  ∧ stocks (step (Response 0 anomaly 1000%Z) streaming) = stocks streaming
  ∧ messageCount (step (Response 0 anomaly 1000%Z) streaming) = 1.
Proof.
  pose proof (response_counts_and_replaces [Mount; TimerFired] 0
                (mkTask (FilterRequest.mk "all" "percent_change") false 0 None)
                (batch [bbca; tlkm]) 1000%Z eq_refl eq_refl)
    as (_ & H1 & H2 & _).
  pose proof (response_counts_and_replaces [Mount; TimerFired] 0
                (mkTask (FilterRequest.mk "all" "percent_change") false 0 None)
                anomaly 1000%Z eq_refl eq_refl)
    as (H3 & _ & _ & H4 & _).
  split; [reflexivity|]. split; [exact (H1 eq_refl)|].
  split; [destruct (H2 eq_refl) as [H _]; exact (f_equal (default []) H)|].
  split; [by destruct (H4 eq_refl)|exact H3].
Defined.

(** C4 as stated fails: after two [connect] calls in a row the ref holds
    the second stream; once the first has published two batches, the first
    batch on the second takes [messageCount] from 2 to 1. *)
Lemma batch_on_current_stream_not_incremented :
  abortControllerRef (run [Mount; Connect; Connect;
                           Response 0 (batch [bbca]) 1000%Z;
                           Response 0 (batch [bbca; tlkm]) 2000%Z]
                        initialState) = Some 1
  ∧ has_pending (tasks (run [Mount; Connect; Connect;
                             Response 0 (batch [bbca]) 1000%Z;
                             Response 0 (batch [bbca; tlkm]) 2000%Z]
                          initialState)) 1
  ∧ messageCount (run [Mount; Connect; Connect;
                       Response 0 (batch [bbca]) 1000%Z;
                       Response 0 (batch [bbca; tlkm]) 2000%Z]
                    initialState) = 2
  ∧ messageCount (step (Response 1 (batch [asii]) 3000%Z)
                    (run [Mount; Connect; Connect;
                          Response 0 (batch [bbca]) 1000%Z;
                          Response 0 (batch [bbca; tlkm]) 2000%Z]
                       initialState)) = 1.
Proof.
  split; [vm_compute; reflexivity|].
  split; [eexists; split; vm_compute; reflexivity|].
  split; vm_compute; reflexivity.
Qed.

Lemma batches_displayed_in_order_witness :
  map stocks
    (states [Response 0 (batch [bbca]) 1000%Z;
             Response 0 (batch [bbca; tlkm]) 2000%Z;
             Response 0 (batch [asii]) 3000%Z]
       (connectToStream "idx30" "percent_change" (mount initialState)))
  = [[]; [bbca]; [bbca; tlkm]; [asii]].
Proof.
  apply (batches_displayed_in_order (mount initialState)
           "idx30" "percent_change"
           (batch [bbca]) (batch [bbca; tlkm]) (batch [asii]) 1000%Z 2000%Z 3000%Z);
    try reflexivity.
  eexists; reflexivity.
Defined.

Lemma messageCount_monotone_reset_witness :
  messageCount (step Connect
                  (run [Mount; TimerFired; Response 0 (batch [bbca]) 1000%Z;
                        Ended 0 Completed] initialState)) = 0
  ∧ messageCount (run [Mount; TimerFired] initialState)
    ≤ messageCount (step (Response 0 (batch [bbca]) 1000%Z)
                      (run [Mount; TimerFired] initialState))
  ∧ messageCount (step (Ended 0 Completed)
                    (run [Mount; TimerFired; Response 0 (batch [bbca]) 1000%Z]
                       initialState)) = 1.
Proof.
  destruct (messageCount_monotone_reset
              [Mount; TimerFired; Response 0 (batch [bbca]) 1000%Z;
               Ended 0 Completed] Connect) as (H1 & _ & _).
  destruct (messageCount_monotone_reset [Mount; TimerFired]
              (Response 0 (batch [bbca]) 1000%Z)) as (_ & _ & H3).
  split; [apply H1; reflexivity|]. split; [apply H3; reflexivity|].
  reflexivity.
Defined.

Lemma disconnect_idempotent_frame_witness :
  disconnect (disconnect streaming) = disconnect streaming
  ∧ observable (disconnect streaming) = observable streaming
  ∧ (abortControllerRef (mount initialState) = None
     ∧ disconnect (mount initialState) = mount initialState)
  ∧ (pending_count (run [Mount; TimerFired; Ended 0 Completed] initialState)
     = 0
     ∧ disconnect (run [Mount; TimerFired; Ended 0 Completed] initialState)
       = run [Mount; TimerFired; Ended 0 Completed] initialState).
Proof.
  destruct (disconnect_idempotent_frame streaming
              [Mount; TimerFired; Ended 0 Completed])
    as (H1 & H2 & _ & _ & H5).
  destruct (disconnect_idempotent_frame (mount initialState) [])
    as (_ & _ & _ & H4 & _).
  split; [exact H1|]. split; [exact H2|].
  split; [split; [reflexivity|apply H4; reflexivity]|].
  split; [reflexivity|apply H5; reflexivity].
Defined.

Lemma disconnect_frame_finalization_only_witness :
  isConnected streaming = true
  ∧ isConnected (step (Ended 0 (Threw abortError)) streaming) = false
  ∧ isConnected (disconnect streaming) = true
  ∧ ∃ id o, Ended 0 (Threw abortError) = Ended id o
            ∧ has_pending (tasks streaming) id
            ∧ abortControllerRef (step (Ended 0 (Threw abortError)) streaming)
              = None.
Proof.
  destruct (disconnect_frame_finalization_only streaming
              (Ended 0 (Threw abortError))) as [(H1 & _) H2].
  split; [reflexivity|]. split; [reflexivity|].
  split; [rewrite H1; reflexivity|]. apply H2; reflexivity.
Defined.

(** The three scenarios of a single stream. *)

Example scenario_batch_then_completed :
  observable
    (run [Mount; SetParameters "idx30" "percent_change"; TimerFired;
          Response 0 (batch [bbca; tlkm]) 1000%Z; Ended 0 Completed]
       initialState)
  = ([bbca; tlkm], false, None, Some 1000%Z, 1)
  ∧ request <$> tasks (run [Mount; SetParameters "idx30" "percent_change";
                            TimerFired] initialState)
    = [FilterRequest.mk "idx30" "percent_change"].
Proof. split; reflexivity. Qed.

Example scenario_network_fault :
  observable (run [Mount; TimerFired; Ended 0 (Threw networkFault)]
                initialState)
  = ([], false, Some "Failed to fetch", None, 0).
Proof. reflexivity. Qed.

Example scenario_disconnect_before_message :
  observable (run [Mount; TimerFired; Disconnect; Ended 0 (Threw abortError)]
                initialState)
  = ([], false, None, None, 0).
Proof. reflexivity. Qed.

(** The same disconnect when the stream ends as the transport ends an
    aborted request: the error is shown. *)
Example scenario_disconnect_rpc_error :
  observable (run [Mount; TimerFired; Disconnect; Ended 0 (Threw rpcAborted)]
                initialState)
  = ([], false, Some "This operation was aborted", None, 0).
Proof. reflexivity. Qed.

(** A rejection with [null]: the [catch] clause throws on [err.name], so no
    error is set; the [finally] clause still runs. *)
Example scenario_null_rejection :
  observable (run [Mount; TimerFired; Ended 0 ThrewNullish] initialState)
  = ([], false, None, None, 0)
  ∧ abortControllerRef (run [Mount; TimerFired; Ended 0 ThrewNullish]
                          initialState) = None.
Proof. split; reflexivity. Qed.

Example stats_sample :
  stats [bbca; tlkm; asii; halted] = mkStats 4 1 1 1.
Proof. reflexivity. Qed.

(** C6 as stated fails: with two streams pending after two [connect]
    calls in a row, a batch on the older one, a step that opens nothing,
    lowers the count the younger one had published. *)
Lemma overlapping_streams_lower_count :
  pending_count (run [Mount; Connect; Connect;
                      Response 1 (batch [bbca]) 1000%Z;
                      Response 1 (batch [bbca]) 2000%Z] initialState) = 2
  ∧ opens_session (Response 0 (batch [tlkm]) 3000%Z)
      (run [Mount; Connect; Connect;
            Response 1 (batch [bbca]) 1000%Z;
            Response 1 (batch [bbca]) 2000%Z] initialState) = false
  ∧ messageCount
      (run [Mount; Connect; Connect; Response 1 (batch [bbca]) 1000%Z;
            Response 1 (batch [bbca]) 2000%Z] initialState) = 2
  ∧ messageCount
      (step (Response 0 (batch [tlkm]) 3000%Z)
         (run [Mount; Connect; Connect; Response 1 (batch [bbca]) 1000%Z;
               Response 1 (batch [bbca]) 2000%Z] initialState)) = 1.
Proof. repeat split; vm_compute; reflexivity. Qed.

(** The rendered controls reach the same: the timer set at mount fires
    after the button opened a stream. *)
Example click_then_timer_lower_count :
  messageCount
    (run [Mount; Click; TimerFired; Response 1 (batch [bbca]) 1000%Z;
          Response 1 (batch [bbca]) 2000%Z] initialState) = 2
  ∧ messageCount
      (run [Mount; Click; TimerFired; Response 1 (batch [bbca]) 1000%Z;
            Response 1 (batch [bbca]) 2000%Z;
            Response 0 (batch [tlkm]) 3000%Z] initialState) = 1.
Proof. split; vm_compute; reflexivity. Qed.

(** * Further properties of the component *)

(** ** The statistics cards and the table rows *)

(** X1: The three cards add up to the total, but for the instruments whose
    change is [NaN], which no card counts. *)
Theorem stats_partition (l : list EStockInfo.t) :
  gainers (stats l) + losers (stats l) + unchanged (stats l)
  + count_unsigned l = total (stats l)
  ∧ gainers (stats l) + losers (stats l) + unchanged (stats l)
    ≤ total (stats l).
Proof.
  destruct (stats_counts_aux l) as (-> & -> & -> & ->).
  assert (count_sign Positive l + count_sign Negative l + count_sign Zero l
          + count_unsigned l = length l) as H.
  { induction l as [|s l IH]; [done|]. simpl.
    destruct (sign (EStockInfo.change s)) as [[]|];
      repeat case_decide; try done; simpl; lia. }
  lia.
Qed.

(** X2: A row is green with an up arrow and a plus sign exactly for a gainer,
    red with a down arrow for a loser, and grey with a dot otherwise, that
    is, for a change that is zero or [NaN]; so colour, icon and prefix
    always agree with each other and with the cards, except that a [NaN]
    row is grey without being counted as unchanged. *)
Theorem row_agrees_with_cards (s : EStockInfo.t) :
  match sign (EStockInfo.change s) with
  | Some Positive =>
      rowColor s = "text-green-600 bg-green-50" ∧ rowIcon s = "▲"
      ∧ rowPrefix s = "+" ∧ is_gainer s = true
      ∧ is_loser s = false ∧ is_unchanged s = false
  | Some Negative =>
      rowColor s = "text-red-600 bg-red-50" ∧ rowIcon s = "▼"
      ∧ rowPrefix s = "" ∧ is_gainer s = false
      ∧ is_loser s = true ∧ is_unchanged s = false
  | Some Zero =>
      rowColor s = "text-gray-600 bg-gray-50" ∧ rowIcon s = "●"
      ∧ rowPrefix s = "" ∧ is_gainer s = false
      ∧ is_loser s = false ∧ is_unchanged s = true
  | None =>
      rowColor s = "text-gray-600 bg-gray-50" ∧ rowIcon s = "●"
      ∧ rowPrefix s = "" ∧ is_gainer s = false
      ∧ is_loser s = false ∧ is_unchanged s = false
  end.
Proof.
  unfold rowColor, rowIcon, rowPrefix, is_gainer, is_loser, is_unchanged.
  destruct (EStockInfo.change s) as [[]|[]| |[] ? ?]; repeat split; reflexivity.
Qed.

(** ** Parameters and the timer *)

(** Unfolds the handlers and splits on every test they make. *)
Ltac handler_cases :=
  unfold loop_body, loop_exit, connectToStream, disconnect, finally_clause,
    catch_clause;
  repeat match goal with
         | |- context [match ?x with _ => _ end] => destruct x eqn:?
         end;
  simpl; try done.

Lemma params_disconnect (st : State) :
  filter (disconnect st) = filter st ∧ sortBy (disconnect st) = sortBy st
  ∧ timer (disconnect st) = timer st.
Proof. handler_cases. Qed.

Lemma params_connect (f s : string) (st : State) :
  filter (connectToStream f s st) = filter st
  ∧ sortBy (connectToStream f s st) = sortBy st
  ∧ timer (connectToStream f s st) = timer st.
Proof. handler_cases. Qed.

Lemma params_loop_body id r now (st : State) :
  filter (loop_body id r now st) = filter st
  ∧ sortBy (loop_body id r now st) = sortBy st
  ∧ timer (loop_body id r now st) = timer st.
Proof. handler_cases. Qed.

Lemma params_loop_exit id o (st : State) :
  filter (loop_exit id o st) = filter st
  ∧ sortBy (loop_exit id o st) = sortBy st
  ∧ timer (loop_exit id o st) = timer st.
Proof. handler_cases. Qed.

Lemma timer_current_same (st st' : State) :
  filter st' = filter st ∧ sortBy st' = sortBy st ∧ timer st' = timer st →
  timer_current st → timer_current st'.
Proof. intros (Hf & Hs & Ht) H p. rewrite Hf, Hs, Ht. apply H. Qed.

Lemma timer_current_restart_effect (st : State) :
  timer_current (restart_effect st).
Proof.
  intros p. unfold restart_effect. simpl. intros [= <-].
  destruct (isConnected st); [|done].
  by destruct (params_disconnect st) as (-> & -> & _).
Qed.

Lemma timer_current_step (e : Event) (st : State) :
  timer_current st → timer_current (step e st).
Proof.
  intros H. destruct e; cbn [step].
  - apply timer_current_restart_effect.
  - intros p. unfold unmount, restart_cleanup.
    destruct (params_disconnect (setTimer None (init_cleanup st)))
      as (_ & _ & ->). done.
  - unfold onClick. destruct (isConnected st).
    + eapply timer_current_same; [apply params_disconnect|done].
    + eapply timer_current_same; [apply params_connect|done].
  - eapply timer_current_same; [apply params_connect|done].
  - eapply timer_current_same; [apply params_disconnect|done].
  - unfold setParameters. destruct (_ && _); [done|].
    apply timer_current_restart_effect.
  - unfold timer_fired. destruct (timer st) as [[f s]|]; [|done].
    intros p. destruct (params_connect f s (setTimer None st)) as (_ & _ & ->).
    done.
  - eapply timer_current_same; [apply params_loop_body|done].
  - eapply timer_current_same; [apply params_loop_exit|done].
Qed.

Lemma timer_current_run (tr : list Event) :
  timer_current (run tr initialState).
Proof. by apply run_invariant; [apply timer_current_step|]. Qed.

(** ** Which events open a stream, and with what *)

Lemma length_tasks_quiet (e : Event) (st : State) :
  opens_session e st = false →
  length (tasks (step e st)) = length (tasks st).
Proof.
  unfold opens_session. intros Ho. destruct e; cbn [step calls_connect] in *.
  - unfold mount, restart_effect. simpl.
    destruct (isConnected st); [|done].
    by rewrite length_tasks_disconnect.
  - unfold unmount, init_cleanup, restart_cleanup.
    rewrite length_tasks_disconnect. simpl. apply length_tasks_disconnect.
  - unfold onClick. destruct (isConnected st); simpl in Ho.
    + apply length_tasks_disconnect.
    + unfold connectToStream. destruct (clientRef st); [|done].
      client_built Ho.
  - unfold connectToStream. destruct (clientRef st); [|done]. client_built Ho.
  - apply length_tasks_disconnect.
  - clear Ho. unfold setParameters. destruct (_ && _); [done|].
    by destruct (rerun_effect (setSortBy s (setFilter f st)))
      as (_ & _ & _ & -> & _).
  - unfold timer_fired. destruct (timer st) as [[f s]|]; [|done].
    unfold connectToStream. simpl. destruct (clientRef st); [|done].
    client_built Ho.
  - unfold loop_body. destruct (tasks st !! id) as [t|]; [|done].
    destruct (pending t); [|done].
    destruct (js_eq _ _); [destruct (DataStreamResponse.data r)|]; simpl;
      apply length_alter.
  - unfold loop_exit. destruct (tasks st !! id) as [t|]; [|done].
    destruct (pending t); [|done].
    destruct o as [|err|]; simpl; [|destruct (String.eqb _ _); simpl|];
      apply length_alter.
Qed.

(** X4: In every reachable state, an event that enters [connectToStream] with
    the client built appends exactly one call, not aborted and with count 0,
    whose request carries the current [filter] and [sortBy], and puts its
    controller in the ref; every other event leaves the number of calls as
    it is. *)
Theorem streams_opened_with_current_parameters (tr : list Event) (e : Event) :
  (opens_session e (run tr initialState) = true →
   tasks (step e (run tr initialState))
   = tasks (run tr initialState)
     ++ [mkTask (FilterRequest.mk (filter (run tr initialState))
                   (sortBy (run tr initialState))) false 0 None]
   ∧ abortControllerRef (step e (run tr initialState))
     = Some (length (tasks (run tr initialState))))
  ∧ (opens_session e (run tr initialState) = false →
     length (tasks (step e (run tr initialState)))
     = length (tasks (run tr initialState))).
Proof.
  split; [|apply length_tasks_quiet].
  unfold opens_session. intros [Hc Hcl]%andb_true_iff.
  apply bool_decide_eq_true in Hcl as [c Hcl].
  destruct e; cbn [step calls_connect] in *; try done.
  - unfold onClick. apply negb_true_iff in Hc. rewrite Hc.
    unfold connectToStream. by rewrite Hcl.
  - unfold connectToStream. by rewrite Hcl.
  - apply bool_decide_eq_true in Hc as [[f s] Ht].
    pose proof (timer_current_run tr _ Ht) as [= -> ->].
    unfold timer_fired, connectToStream. rewrite Ht. simpl. by rewrite Hcl.
Qed.

(** ** [isConnected], the ref and the client *)

(** X5: In every reachable state, with or without overlapping streams,
    [isConnected] is true exactly when the ref holds a controller, and the
    call that allocated that controller is then still in its loop. *)
Theorem connected_iff_ref (tr : list Event) :
  (isConnected (run tr initialState) = true
   ↔ is_Some (abortControllerRef (run tr initialState)))
  ∧ (∀ id, abortControllerRef (run tr initialState) = Some id →
           has_pending (tasks (run tr initialState)) id).
Proof.
  pose proof (ref_ok_run tr) as H. unfold ref_ok in H.
  destruct (abortControllerRef (run tr initialState)) as [id|].
  - destruct H as (Hc & _ & Hp). split; [by split; [eexists|]|].
    by intros ? [= <-].
  - split; [|done]. rewrite H. split; [done|]. by intros [? ?].
Qed.

Lemma clientRef_step (e : Event) (st : State) :
  is_Some (clientRef st) → is_Some (clientRef (step e st)).
Proof.
  intros [c Hc]. destruct e; cbn [step].
  - unfold mount, restart_effect. simpl.
    destruct (isConnected st); [rewrite clientRef_disconnect|]; by eexists.
  - unfold unmount, init_cleanup, restart_cleanup.
    rewrite clientRef_disconnect. simpl. rewrite clientRef_disconnect.
    by eexists.
  - unfold onClick, connectToStream. rewrite Hc.
    destruct (isConnected st); [rewrite clientRef_disconnect|]; by eexists.
  - unfold connectToStream. rewrite Hc. by eexists.
  - rewrite clientRef_disconnect. by eexists.
  - unfold setParameters. destruct (_ && _); [by eexists|].
    destruct (rerun_effect (setSortBy s (setFilter f st)))
      as (_ & _ & _ & _ & -> & _). by eexists.
  - unfold timer_fired. destruct (timer st) as [[f s]|]; [|by eexists].
    unfold connectToStream. simpl. rewrite Hc. by eexists.
  - unfold loop_body. destruct (tasks st !! id) as [t|]; [|by eexists].
    destruct (pending t); [|by eexists].
    destruct (js_eq _ _); [destruct (DataStreamResponse.data r)|];
      by eexists.
  - unfold loop_exit. destruct (tasks st !! id) as [t|]; [|by eexists].
    destruct (pending t); [|by eexists].
    destruct o as [|err|]; simpl; [|destruct (String.eqb _ _)|]; by eexists.
Qed.

Lemma clientRef_mount (st : State) : is_Some (clientRef (mount st)).
Proof.
  unfold mount, restart_effect, init_effect. simpl.
  destruct (isConnected st); [rewrite clientRef_disconnect|]; by eexists.
Qed.

(** X6: Once the component has mounted, the client stays built whatever
    happens next, so every later entry into [connectToStream] opens a
    stream: it sets [isConnected], clears the error, and the text
    "gRPC client not initialized" can only be produced before the mount. *)
Theorem connect_after_mount_opens (tr1 tr2 : list Event) (e : Event)
    (st : State) :
  calls_connect e (run (tr1 ++ Mount :: tr2) st) = true →
  opens_session e (run (tr1 ++ Mount :: tr2) st) = true
  ∧ isConnected (step e (run (tr1 ++ Mount :: tr2) st)) = true
  ∧ error (step e (run (tr1 ++ Mount :: tr2) st)) = None
  ∧ pending_count (step e (run (tr1 ++ Mount :: tr2) st))
    = S (pending_count (run (tr1 ++ Mount :: tr2) st)).
Proof.
  intros Hc.
  assert (is_Some (clientRef (run (tr1 ++ Mount :: tr2) st))) as [c Hcl].
  { rewrite run_app, run_cons.
    apply run_invariant; [apply clientRef_step|]. apply clientRef_mount. }
  set (st' := run (tr1 ++ Mount :: tr2) st) in *.
  assert (opens_session e st' = true) as Ho.
  { unfold opens_session. rewrite Hc, Hcl. done. }
  split; [done|].
  destruct e; cbn [step calls_connect] in *; try done.
  - unfold onClick. apply negb_true_iff in Hc. rewrite Hc.
    rewrite pending_count_connect. unfold connectToStream.
    by rewrite Hcl.
  - rewrite pending_count_connect. unfold connectToStream. by rewrite Hcl.
  - apply bool_decide_eq_true in Hc as [[f s] Ht]. unfold timer_fired.
    rewrite Ht, pending_count_connect. unfold connectToStream. simpl.
    by rewrite Hcl.
Qed.

(** ** What each event does to what is shown *)

Lemma observable_restart_effect (st : State) :
  observable (restart_effect st) = observable st.
Proof.
  unfold restart_effect. destruct (isConnected st) eqn:E.
  - change (observable (disconnect st) = observable st).
    apply observable_disconnect.
  - done.
Qed.

Lemma observable_restart_cleanup (st : State) :
  observable (restart_cleanup st) = observable st.
Proof. unfold restart_cleanup. by rewrite observable_disconnect. Qed.

Lemma observable_setParameters (f s : string) (st : State) :
  observable (setParameters f s st) = observable st.
Proof.
  unfold setParameters. destruct (_ && _); [done|].
  by rewrite observable_restart_effect, observable_restart_cleanup.
Qed.

Lemma observable_connect (f s : string) (st : State) :
  observable (connectToStream f s st)
  = match clientRef st with
    | Some _ => ([], true, None, lastUpdate st, 0)
    | None => (stocks st, isConnected st,
               Some "gRPC client not initialized", lastUpdate st,
               messageCount st)
    end.
Proof. unfold connectToStream. by destruct (clientRef st). Qed.

Lemma observable_loop_body id r now (st : State) (t : Task) :
  tasks st !! id = Some t → pending t = true →
  observable (loop_body id r now st)
  = (if is_success r then default [] (DataStreamResponse.data r)
     else stocks st,
     isConnected st, error st,
     if is_success r then Some now else lastUpdate st,
     S (count t)).
Proof.
  intros Hl Ht. unfold loop_body, is_success. rewrite Hl, Ht.
  by destruct (js_eq _ _); [destruct (DataStreamResponse.data r)|].
Qed.

Lemma observable_loop_exit id o (st : State) (t : Task) :
  tasks st !! id = Some t → pending t = true →
  observable (loop_exit id o st)
  = (stocks st, false,
     match classify o with
     | errored cause => Some (errorMessage cause)
     | _ => error st
     end,
     lastUpdate st, messageCount st).
Proof.
  intros Hl Ht. unfold loop_exit, classify. rewrite Hl, Ht.
  destruct o as [|err|]; simpl; [done| |done]. by destruct (String.eqb _ _).
Qed.

Lemma step_shown (e : Event) (st : State) : Shown e st.
Proof.
  destruct e; cbn [step].
  - apply shown_same. unfold step, mount. by rewrite observable_restart_effect.
  - apply shown_same. unfold step, unmount, init_cleanup.
    by rewrite observable_restart_cleanup, observable_disconnect.
  - destruct (isConnected st) eqn:Hc.
    + apply shown_same. unfold step, onClick. rewrite Hc.
      apply observable_disconnect.
    + destruct (clientRef st) as [c|] eqn:Hcl.
      * apply shown_opened.
        -- unfold opens_session. simpl. by rewrite Hc, Hcl.
        -- unfold step, onClick. by rewrite Hc, observable_connect, Hcl.
      * apply shown_no_client; [simpl; by rewrite Hc|done|].
        unfold step, onClick. rewrite Hc, observable_connect, Hcl.
        by rewrite Hc.
  - destruct (clientRef st) as [c|] eqn:Hcl.
    + apply shown_opened.
      * unfold opens_session. simpl. by rewrite Hcl.
      * unfold step. by rewrite observable_connect, Hcl.
    + apply shown_no_client; [done..|].
      unfold step. by rewrite observable_connect, Hcl.
  - apply shown_same. apply observable_disconnect.
  - apply shown_same. apply observable_setParameters.
  - destruct (timer st) as [[f s]|] eqn:Ht.
    + destruct (clientRef st) as [c|] eqn:Hcl.
      * apply shown_opened.
        -- unfold opens_session. simpl. by rewrite Ht, Hcl.
        -- unfold step, timer_fired. rewrite Ht, observable_connect. simpl.
           by rewrite Hcl.
      * apply shown_no_client; [simpl; by rewrite Ht|done|].
        unfold step, timer_fired. rewrite Ht, observable_connect. simpl.
        by rewrite Hcl.
    + apply shown_same. unfold step, timer_fired. by rewrite Ht.
  - destruct (tasks st !! id) as [t|] eqn:Hl.
    + destruct (pending t) eqn:Hp.
      * apply (shown_batch _ _ id r now t); try done.
        by apply (observable_loop_body id r now st t).
      * apply shown_same. unfold step. rewrite loop_body_idle; [done|].
        intros t' Ht'. congruence.
    + apply shown_same. unfold step. rewrite loop_body_idle; [done|].
      intros t' Ht'. congruence.
  - destruct (tasks st !! id) as [t|] eqn:Hl.
    + destruct (pending t) eqn:Hp.
      * apply (shown_ended _ _ id o t); try done.
        by apply (observable_loop_exit id o st t).
      * apply shown_same. unfold step. rewrite loop_exit_idle; [done|].
        intros t' Ht'. congruence.
    + apply shown_same. unfold step. rewrite loop_exit_idle; [done|].
      intros t' Ht'. congruence.
Qed.

Lemma lastUpdate_step (e : Event) (st : State) :
  lastUpdate (step e st) = lastUpdate st
  ∨ ∃ id r now, e = Response id r now ∧ has_pending (tasks st) id
                ∧ is_success r = true ∧ lastUpdate (step e st) = Some now.
Proof.
  destruct (step_shown e st) as [H|_ H|_ _ H|id r now t -> Hl Hp H|id o t _ _ _ H];
    try (left; by injection H).
  destruct (is_success r) eqn:Hs; [|left; by injection H].
  right. exists id, r, now.
  split; [done|]. split; [by exists t|]. split; [done|]. by injection H.
Qed.

(** X7: The time of the last update changes only when a pending call receives
    a batch with code 200 and a payload, and then becomes the time of that
    batch; no event clears it, not even the opening of a new stream, so once
    a batch was displayed a time of last update is shown for good. *)
Theorem lastUpdate_only_by_success (tr : list Event) (e : Event) (st : State) :
  (lastUpdate (step e st) = lastUpdate st
   ∨ ∃ id r now, e = Response id r now ∧ has_pending (tasks st) id
                 ∧ is_success r = true ∧ lastUpdate (step e st) = Some now)
  ∧ (is_Some (lastUpdate st) → is_Some (lastUpdate (run tr st))).
Proof.
  split; [apply lastUpdate_step|].
  apply (run_invariant (λ s, is_Some (lastUpdate s))).
  intros e' s' Hs'.
  destruct (lastUpdate_step e' s') as [->|(? & ? & ? & _ & _ & _ & ->)];
    [done|by eexists].
Qed.

(** X8: The error shown changes only in three ways: it is cleared when a
    stream is opened, set to "gRPC client not initialized" when
    [connectToStream] is entered before the client was built, and set to the
    message of the cause when a pending call leaves its loop by an exception
    not named [AbortError]; every other event, a disconnect and a normal or
    cancelled end included, leaves it as it is. *)
Theorem error_changes_only_by (e : Event) (st : State) :
  error (step e st) = error st
  ∨ (opens_session e st = true ∧ error (step e st) = None)
  ∨ (calls_connect e st = true ∧ clientRef st = None
     ∧ error (step e st) = Some "gRPC client not initialized")
  ∨ (∃ id err, e = Ended id (Threw err) ∧ has_pending (tasks st) id
               ∧ err_name err ≠ "AbortError"
               ∧ error (step e st) = Some (errorMessage err)).
Proof.
  destruct (step_shown e st)
    as [H|Ho H|Hc Hcl H|id r now t -> Hl Hp H|id o t -> Hl Hp H].
  - left. by injection H.
  - right. left. split; [done|]. by injection H.
  - right. right. left. repeat split; try done. by injection H.
  - left. by injection H.
  - destruct o as [|err|]; [left; by injection H| |left; by injection H].
    unfold classify in H.
    destruct (String.eqb (err_name err) "AbortError") eqn:E;
      [left; by injection H|].
    right. right. right. exists id, err.
    split; [done|]. split; [by exists t|].
    split; [by apply String.eqb_neq|by injection H].
Qed.

(** X9: The displayed list changes only in two ways: it is emptied when a
    stream is opened, and replaced by the payload when a pending call
    receives a batch with code 200 and a payload; a disconnect, the end of a
    stream, a change of parameters and a batch with another code or without
    payload all leave it as it is. *)
Theorem stocks_change_only_by (e : Event) (st : State) :
  stocks (step e st) = stocks st
  ∨ (opens_session e st = true ∧ stocks (step e st) = [])
  ∨ (∃ id r now, e = Response id r now ∧ has_pending (tasks st) id
                 ∧ is_success r = true
                 ∧ Some (stocks (step e st)) = DataStreamResponse.data r).
Proof.
  destruct (step_shown e st)
    as [H|Ho H|Hc Hcl H|id r now t -> Hl Hp H|id o t -> Hl Hp H];
    try (left; by injection H).
  - right. left. split; [done|]. by injection H.
  - destruct (is_success r) eqn:Hs; [|left; by injection H].
    right. right. exists id, r, now.
    split; [done|]. split; [by exists t|]. split; [done|].
    assert (stocks (step (Response id r now) st)
            = default [] (DataStreamResponse.data r)) as E
      by (by injection H).
    rewrite E.
    unfold is_success in Hs.
    apply andb_true_iff in Hs as [_ Hd]. apply bool_decide_eq_true in Hd.
    by destruct Hd as [d ->].
Qed.

(** ** Streams the ref no longer holds *)

Lemma out_of_reach_alter (f : Task → Task) (i id : nat) (st st' : State) :
  (∀ t, aborted t = false → i ≠ id → aborted (f t) = false) →
  (i = id → ∀ t, aborted (f t) = aborted t) →
  abortControllerRef st' ≠ Some id →
  tasks st' = alter f i (tasks st) →
  out_of_reach id st → out_of_reach id st'.
Proof.
  intros Hne Heq Hr Ht (_ & t & Hl & Ha). split; [done|].
  rewrite Ht, list_lookup_alter. case_decide as Hi.
  - subst i. rewrite Hl. exists (f t). split; [done|]. by rewrite Heq.
  - by exists t.
Qed.

Lemma out_of_reach_disconnect (id : nat) (st : State) :
  out_of_reach id st → out_of_reach id (disconnect st).
Proof.
  intros H. pose proof H as (Hr & t & Hl & Ha). unfold disconnect.
  destruct (abortControllerRef st) as [i|] eqn:E; [|done].
  split; [simpl; by rewrite E|]. simpl.
  rewrite list_lookup_alter_ne; [by exists t|]. congruence.
Qed.

Lemma out_of_reach_connect (id : nat) (f s : string) (st : State) :
  out_of_reach id st → out_of_reach id (connectToStream f s st).
Proof.
  intros (Hr & t & Hl & Ha). unfold connectToStream.
  destruct (clientRef st); [|by split; [|exists t]].
  split; simpl.
  - apply lookup_lt_Some in Hl. intros [= E]. lia.
  - exists t. split; [by apply lookup_app_l_Some|done].
Qed.

Lemma out_of_reach_loop_body (id i : nat) r now (st : State) :
  out_of_reach id st → out_of_reach id (loop_body i r now st).
Proof.
  intros H. unfold loop_body. destruct (tasks st !! i) as [u|]; [|done].
  destruct (pending u); [|done].
  assert (out_of_reach id
            (setMessageCount (S (count u))
               (setTasks (alter bump i (tasks st)) st))) as H'.
  { apply (out_of_reach_alter bump i id st); try done. by destruct H. }
  by destruct (js_eq _ _); [destruct (DataStreamResponse.data r)|].
Qed.

Lemma out_of_reach_loop_exit (id i : nat) o (st : State) :
  out_of_reach id st → out_of_reach id (loop_exit i o st).
Proof.
  intros H. unfold loop_exit. destruct (tasks st !! i) as [u|]; [|done].
  destruct (pending u); [|done].
  destruct H as (_ & t & Hl & Ha). split; [done|].
  assert (∃ t', alter (settle o) i (tasks st) !! id = Some t'
                ∧ aborted t' = false) as H'.
  { rewrite list_lookup_alter. case_decide as Hi; [|by exists t].
    subst i. rewrite Hl. by exists (settle o t). }
  destruct o as [|err|]; simpl; [done| |done]. by destruct (String.eqb _ _).
Qed.

Lemma out_of_reach_restart_effect (id : nat) (st : State) :
  out_of_reach id st → out_of_reach id (restart_effect st).
Proof.
  intros H. unfold restart_effect.
  assert (out_of_reach id (if isConnected st then disconnect st else st))
    as H'.
  { destruct (isConnected st); [by apply out_of_reach_disconnect|done]. }
  exact H'.
Qed.

Lemma out_of_reach_restart_cleanup (id : nat) (st : State) :
  out_of_reach id st → out_of_reach id (restart_cleanup st).
Proof. intros H. unfold restart_cleanup. by apply out_of_reach_disconnect. Qed.

Lemma out_of_reach_step (id : nat) (e : Event) (st : State) :
  out_of_reach id st → out_of_reach id (step e st).
Proof.
  intros H. destruct e; cbn [step].
  - unfold mount. by apply out_of_reach_restart_effect.
  - unfold unmount, init_cleanup.
    by apply out_of_reach_restart_cleanup, out_of_reach_disconnect.
  - unfold onClick. destruct (isConnected st);
      [by apply out_of_reach_disconnect|by apply out_of_reach_connect].
  - by apply out_of_reach_connect.
  - by apply out_of_reach_disconnect.
  - unfold setParameters. destruct (_ && _); [done|].
    by apply out_of_reach_restart_effect, out_of_reach_restart_cleanup.
  - unfold timer_fired. destruct (timer st) as [[f s]|]; [|done].
    by apply out_of_reach_connect.
  - by apply out_of_reach_loop_body.
  - by apply out_of_reach_loop_exit.
Qed.

Lemma out_of_reach_run (id : nat) (tr : list Event) (st : State) :
  out_of_reach id st → out_of_reach id (run tr st).
Proof. apply run_invariant. intros e s. apply out_of_reach_step. Qed.

(** X10: A call whose controller the ref does not hold, and which was not told
    to abort, is never told to abort: no sequence of clicks, disconnects,
    changes of parameters, timer expiries, unmounts or stream events
    reaches it, and the ref never holds its controller again. *)
Theorem orphan_never_aborted (id : nat) (tr : list Event) (st : State)
    (t : Task) :
  abortControllerRef st ≠ Some id →
  tasks st !! id = Some t → aborted t = false →
  abortControllerRef (run tr st) ≠ Some id
  ∧ ∃ t', tasks (run tr st) !! id = Some t' ∧ aborted t' = false.
Proof.
  intros Hr Hl Ha. apply (out_of_reach_run id tr st). split; [done|].
  by exists t.
Qed.

(** X11: When one of two pending calls leaves its loop, its [finally] clause
    clears the ref and [isConnected] although the other is still in its
    loop: the component shows itself disconnected, [disconnect] does
    nothing, and nothing that follows aborts the call left behind. *)
Theorem exit_strands_other_stream (st : State) (i j : nat) (o : Outcome)
    (t : Task) (tr : list Event) :
  i ≠ j → has_pending (tasks st) i →
  tasks st !! j = Some t → pending t = true → aborted t = false →
  isConnected (loop_exit i o st) = false
  ∧ abortControllerRef (loop_exit i o st) = None
  ∧ has_pending (tasks (loop_exit i o st)) j
  ∧ disconnect (loop_exit i o st) = loop_exit i o st
  ∧ ∃ t', tasks (run tr (loop_exit i o st)) !! j = Some t'
          ∧ aborted t' = false.
Proof.
  intros Hij (u & Hu & Hpu) Hl Hp Ha.
  assert (abortControllerRef (loop_exit i o st) = None) as Hr.
  { unfold loop_exit. by rewrite Hu, Hpu. }
  assert (tasks (loop_exit i o st) !! j = Some t) as Hl'.
  { rewrite (tasks_loop_exit i o st u Hu Hpu).
    by rewrite list_lookup_alter_ne. }
  split; [by eapply isConnected_loop_exit|]. split; [done|].
  split; [by exists t|].
  split; [unfold disconnect; by rewrite Hr|].
  apply (out_of_reach_run j tr). split; [by rewrite Hr|by exists t].
Qed.

(** ** A stream of batches *)

Lemma deliver_snoc (id : nat) (rs : list (DataStreamResponse.t * Date))
    (p : DataStreamResponse.t * Date) (st : State) :
  run (deliver id (rs ++ [p])) st
  = loop_body id p.1 p.2 (run (deliver id rs) st).
Proof. unfold deliver. by rewrite map_app, run_app. Qed.

Lemma last_success_snoc (rs : list (DataStreamResponse.t * Date))
    (p : DataStreamResponse.t * Date) :
  last_success (rs ++ [p])
  = if is_success p.1 then Some p else last_success rs.
Proof.
  unfold last_success. rewrite List.filter_app. simpl.
  destruct (is_success p.1); [apply last_snoc|by rewrite app_nil_r].
Qed.

(** What a pending call and the display look like after the batches [rs]
    arrived on it and nothing else happened. *)
Lemma deliver_run (id : nat) (t : Task) (st : State)
    (rs : list (DataStreamResponse.t * Date)) :
  tasks st !! id = Some t → pending t = true →
  (∃ t', tasks (run (deliver id rs) st) !! id = Some t' ∧ pending t' = true
         ∧ count t' = count t + length rs)
  ∧ observable (run (deliver id rs) st)
    = (match last_success rs with
       | Some p => default [] (DataStreamResponse.data p.1)
       | None => stocks st
       end,
       isConnected st, error st,
       match last_success rs with
       | Some p => Some p.2
       | None => lastUpdate st
       end,
       match rs with [] => messageCount st | _ => count t + length rs end).
Proof.
  intros Hl Hp. induction rs as [|p rs IH] using rev_ind.
  - split; [|done]. exists t. repeat split; try done; simpl; lia.
  - destruct IH as ((t' & Hl' & Hp' & Hc') & Ho).
    rewrite deliver_snoc, last_success_snoc. split.
    + exists (bump t'). unfold loop_body. rewrite Hl', Hp'.
      assert (alter bump id (tasks (run (deliver id rs) st)) !! id
              = Some (bump t')) as E by by rewrite list_lookup_alter_eq, Hl'.
      rewrite length_app. simpl.
      destruct (js_eq _ _); [destruct (DataStreamResponse.data p.1)|];
        simpl; (split; [done|]); (split; [done|]); lia.
    + rewrite (observable_loop_body id p.1 p.2 _ t' Hl' Hp').
      injection Ho as -> -> -> -> _. rewrite Hc', length_app. simpl.
      replace (S (count t + length rs)) with (count t + (length rs + 1))
        by lia.
      destruct (is_success p.1); by destruct rs.
Qed.

(** X12: After [connectToStream] opened a stream, any number of batches received
    on it, with or without payload and whatever their codes, leave
    [messageCount] at their number, the displayed list at the payload of the
    last batch with code 200 and a payload (empty when there was none), and
    the last update at the time of that batch (unchanged when there was
    none); the stream is still pending, connected and without error. *)
Theorem batches_count_and_last_success (st : State) (f s : string)
    (rs : list (DataStreamResponse.t * Date)) :
  is_Some (clientRef st) →
  observable (run (deliver (length (tasks st)) rs) (connectToStream f s st))
  = (match last_success rs with
     | Some p => default [] (DataStreamResponse.data p.1)
     | None => []
     end,
     true, None,
     match last_success rs with
     | Some p => Some p.2
     | None => lastUpdate st
     end,
     length rs)
  ∧ has_pending
      (tasks (run (deliver (length (tasks st)) rs) (connectToStream f s st)))
      (length (tasks st)).
Proof.
  intros [c Hc].
  assert (tasks (connectToStream f s st) !! length (tasks st)
          = Some (mkTask (FilterRequest.mk f s) false 0 None)) as Hl.
  { unfold connectToStream. rewrite Hc. simpl. by apply list_lookup_middle. }
  destruct (deliver_run _ _ _ rs Hl eq_refl) as ((t' & Hl' & Hp' & _) & Ho).
  split; [|by exists t'].
  rewrite Ho. unfold connectToStream. rewrite Hc. simpl.
  by destruct (last_success rs), rs.
Qed.

(** ** Mounting and unmounting *)

Lemma unmount_unfold (st : State) :
  unmount st = setTimer None (disconnect st).
Proof.
  unfold unmount, init_cleanup, restart_cleanup, disconnect.
  destruct (abortControllerRef st) as [id|] eqn:E; simpl; rewrite ?E; [|done].
  simpl. by rewrite alter_abort_twice.
Qed.

(** X13: Unmounting clears the timer, so that a later expiry opens nothing, and
    aborts the call whose controller the ref holds; it changes nothing
    that is shown, settles no call, and doing it twice is doing it once. *)
Theorem unmount_tears_down (st : State) (id : nat) :
  timer (unmount st) = None
  ∧ step TimerFired (unmount st) = unmount st
  ∧ unmount (unmount st) = unmount st
  ∧ observable (unmount st) = observable st
  ∧ pending_count (unmount st) = pending_count st
  ∧ (abortControllerRef st = Some id → is_Some (tasks st !! id) →
     is_aborted (tasks (unmount st)) id).
Proof.
  rewrite !unmount_unfold. split; [done|]. split; [done|].
  split.
  { unfold disconnect.
    destruct (abortControllerRef st) as [i|] eqn:E; simpl; rewrite ?E; [|done].
    simpl. by rewrite alter_abort_twice. }
  split; [apply observable_disconnect|].
  split; [apply pending_count_disconnect|].
  intros Hr Hl. by apply disconnect_aborts.
Qed.

(** ** A change of parameters while idle *)

Lemma setParameters_changed (f s : string) (st : State) :
  (f, s) ≠ (filter st, sortBy st) →
  setParameters f s st
  = restart_effect (restart_cleanup (setSortBy s (setFilter f st))).
Proof.
  intros Hne. unfold setParameters.
  destruct (String.eqb f (filter st) && String.eqb s (sortBy st)) eqn:E;
    [|done].
  apply andb_true_iff in E as [Ef Es]. apply String.eqb_eq in Ef, Es.
  by subst.
Qed.

(** X15: In a reachable state without connection, a change of parameters aborts
    nothing and changes nothing that is shown, but it sets the timer: the
    expiry that follows opens a stream with the new parameters although
    nobody asked to connect. *)
Theorem idle_change_schedules_connect (tr : list Event) (f s : string) :
  isConnected (run tr initialState) = false →
  is_Some (clientRef (run tr initialState)) →
  (f, s) ≠ (filter (run tr initialState), sortBy (run tr initialState)) →
  tasks (setParameters f s (run tr initialState))
  = tasks (run tr initialState)
  ∧ observable (setParameters f s (run tr initialState))
    = observable (run tr initialState)
  ∧ timer (setParameters f s (run tr initialState)) = Some (f, s)
  ∧ tasks (run [SetParameters f s; TimerFired] (run tr initialState))
    = tasks (run tr initialState)
      ++ [mkTask (FilterRequest.mk f s) false 0 None]
  ∧ isConnected (run [SetParameters f s; TimerFired] (run tr initialState))
    = true.
Proof.
  intros Hc [c Hcl] Hne. set (st := run tr initialState) in *.
  pose proof (ref_ok_run tr) as Hok. fold st in Hok. unfold ref_ok in Hok.
  destruct (abortControllerRef st) as [i|] eqn:Hr;
    [destruct Hok as (Hc' & _); congruence|].
  assert (setParameters f s st
          = setTimer (Some (f, s)) (setSortBy s (setFilter f st))) as E.
  { rewrite (setParameters_changed f s st Hne).
    unfold restart_effect, restart_cleanup, disconnect. simpl.
    rewrite Hr. simpl. by rewrite Hc. }
  cbn [run fold_left step]. rewrite E.
  unfold timer_fired, connectToStream. simpl. by rewrite Hcl.
Qed.

(** ** Under the test of the button *)

Lemma guarded_run_invariant (P : State → Prop) :
  (∀ e st, P st →
     calls_connect e st = false ∨ isConnected st = false → P (step e st)) →
  ∀ tr st, P st → guarded tr st = true → P (run tr st).
Proof.
  intros Hstep tr. induction tr as [|e tr IH]; intros st Hst Hg; [done|].
  simpl in Hg. apply andb_true_iff in Hg as [Hg1 Hg2].
  rewrite run_cons. apply IH; [|done]. apply Hstep; [done|].
  apply orb_true_iff in Hg1 as [H|H]; apply negb_true_iff in H; auto.
Qed.

(** X17: Along a guarded run, the ref holds the controller of every pending
    call: there is no call that a click on Disconnect would not reach, and
    after [disconnect] the pending call is told to abort. *)
Theorem guarded_disconnect_reaches_stream (tr : list Event) (id : nat) :
  guarded tr initialState = true →
  has_pending (tasks (run tr initialState)) id →
  abortControllerRef (run tr initialState) = Some id
  ∧ isConnected (run tr initialState) = true
  ∧ is_aborted (tasks (step Disconnect (run tr initialState))) id
  ∧ step Click (run tr initialState)
    = step Disconnect (run tr initialState).
Proof.
  intros Hg Hp.
  pose proof (guarded_run_invariant in_step in_step_step tr initialState
                in_step_initial Hg) as Hin.
  pose proof (ref_ok_run tr) as Hok. set (st := run tr initialState) in *.
  unfold in_step in Hin. unfold ref_ok in Hok.
  pose proof (has_pending_count _ _ Hp) as Hn. fold (pending_count st) in Hn.
  destruct (isConnected st) eqn:Hc; [|lia].
  destruct (abortControllerRef st) as [i|] eqn:Hr; [|congruence].
  destruct Hok as (_ & _ & (u & Hu & Hpu)). destruct Hp as (t & Hl & Ht).
  assert (i = id) as ->.
  { apply (filter_pending_unique (tasks st) i id u t); try done.
    fold (pending_count st). lia. }
  split; [done|]. split; [done|]. split.
  - cbn [step]. apply disconnect_aborts; [done|by eexists].
  - cbn [step]. unfold onClick. by rewrite Hc.
Qed.

(** ** The further properties on sample data *)

Lemma streams_opened_with_current_parameters_witness :
  opens_session TimerFired
    (run [Mount; SetParameters "idx30" "volume"] initialState) = true
  ∧ tasks (step TimerFired
             (run [Mount; SetParameters "idx30" "volume"] initialState))
    = tasks (run [Mount; SetParameters "idx30" "volume"] initialState)
      ++ [mkTask (FilterRequest.mk "idx30" "volume") false 0 None]
  ∧ opens_session Click (run [Mount; TimerFired] initialState) = false
  ∧ length (tasks (step Click (run [Mount; TimerFired] initialState))) = 1.
Proof.
  destruct (streams_opened_with_current_parameters
              [Mount; SetParameters "idx30" "volume"] TimerFired)
    as [H1 _].
  destruct (streams_opened_with_current_parameters
              [Mount; TimerFired] Click) as [_ H2].
  split; [reflexivity|]. split; [exact (proj1 (H1 eq_refl))|].
  split; [reflexivity|]. rewrite (H2 eq_refl). reflexivity.
Defined.

Lemma connected_iff_ref_witness :
  abortControllerRef (run [Mount; Connect; Connect] initialState) = Some 1
  ∧ isConnected (run [Mount; Connect; Connect] initialState) = true
  ∧ has_pending (tasks (run [Mount; Connect; Connect] initialState)) 1.
Proof.
  destruct (connected_iff_ref [Mount; Connect; Connect]) as [H1 H2].
  split; [vm_compute; reflexivity|].
  split; [apply H1; exists 1; vm_compute; reflexivity|].
  apply H2. vm_compute. reflexivity.
Defined.

Lemma connect_after_mount_opens_witness :
  error (run [Connect] initialState) = Some "gRPC client not initialized"
  ∧ calls_connect Click (run ([Connect] ++ Mount :: []) initialState) = true
  ∧ isConnected (step Click (run ([Connect] ++ Mount :: []) initialState))
    = true
  ∧ error (step Click (run ([Connect] ++ Mount :: []) initialState)) = None.
Proof.
  destruct (connect_after_mount_opens [Connect] [] Click initialState eq_refl)
    as (_ & H2 & H3 & _).
  split; [reflexivity|]. split; [reflexivity|]. split; [exact H2|exact H3].
Defined.

Lemma lastUpdate_only_by_success_witness :
  is_Some (lastUpdate (run [Response 0 (batch [bbca]) 1000%Z] streaming))
  ∧ is_Some (lastUpdate
               (run [Ended 0 Completed; Click; Response 1 anomaly 2000%Z]
                  (run [Response 0 (batch [bbca]) 1000%Z] streaming))).
Proof.
  assert (is_Some (lastUpdate (run [Response 0 (batch [bbca]) 1000%Z]
                                 streaming))) as H by (by eexists).
  split; [exact H|].
  exact (proj2 (lastUpdate_only_by_success
                  [Ended 0 Completed; Click; Response 1 anomaly 2000%Z]
                  Click _) H).
Defined.

Lemma orphan_never_aborted_witness :
  abortControllerRef (run [Mount; Connect; Connect] initialState) ≠ Some 0
  ∧ ∃ t', tasks (run [Disconnect; Click; SetParameters "idx30" "volume";
                      Unmount]
                   (run [Mount; Connect; Connect] initialState)) !! 0
          = Some t'
          ∧ aborted t' = false.
Proof.
  assert (abortControllerRef (run [Mount; Connect; Connect] initialState)
          ≠ Some 0) as Hr by (intros H; vm_compute in H; discriminate H).
  split; [exact Hr|].
  exact (proj2 (orphan_never_aborted 0
                  [Disconnect; Click; SetParameters "idx30" "volume"; Unmount]
                  (run [Mount; Connect; Connect] initialState)
                  (mkTask (FilterRequest.mk "all" "percent_change")
                     false 0 None)
                  Hr eq_refl eq_refl)).
Defined.

Lemma exit_strands_other_stream_witness :
  has_pending (tasks (run [Mount; Connect; Connect] initialState)) 0
  ∧ isConnected (loop_exit 0 Completed
                   (run [Mount; Connect; Connect] initialState)) = false
  ∧ has_pending (tasks (loop_exit 0 Completed
                          (run [Mount; Connect; Connect] initialState))) 1
  ∧ disconnect (loop_exit 0 Completed
                  (run [Mount; Connect; Connect] initialState))
    = loop_exit 0 Completed (run [Mount; Connect; Connect] initialState).
Proof.
  assert (has_pending (tasks (run [Mount; Connect; Connect] initialState)) 0)
    as Hp by (eexists; split; reflexivity).
  assert (0 ≠ 1) as Hne by lia.
  destruct (exit_strands_other_stream
              (run [Mount; Connect; Connect] initialState) 0 1 Completed
              (mkTask (FilterRequest.mk "all" "percent_change") false 0 None)
              [Click; Disconnect; Unmount] Hne Hp eq_refl eq_refl eq_refl)
    as (H1 & _ & H3 & H4 & _).
  split; [exact Hp|]. split; [exact H1|]. split; [exact H3|exact H4].
Defined.

Lemma batches_count_and_last_success_witness :
  observable
    (run (deliver 0 [(batch [bbca], 1000%Z); (anomaly, 2000%Z);
                     (batch [bbca; tlkm], 3000%Z); (anomaly, 4000%Z)])
       (connectToStream "idx30" "volume" (mount initialState)))
  = ([bbca; tlkm], true, None, Some 3000%Z, 4).
Proof.
  assert (is_Some (clientRef (mount initialState))) as Hc by (by eexists).
  exact (proj1 (batches_count_and_last_success (mount initialState)
                  "idx30" "volume"
                  [(batch [bbca], 1000%Z); (anomaly, 2000%Z);
                   (batch [bbca; tlkm], 3000%Z); (anomaly, 4000%Z)] Hc)).
Defined.

Lemma unmount_tears_down_witness :
  abortControllerRef streaming = Some 0
  ∧ is_aborted (tasks (unmount streaming)) 0
  ∧ step TimerFired (unmount (mount initialState)) = unmount (mount initialState)
  ∧ pending_count (unmount streaming) = 1.
Proof.
  destruct (unmount_tears_down streaming 0) as (_ & _ & _ & _ & H5 & H6).
  destruct (unmount_tears_down (mount initialState) 0) as (_ & H2 & _).
  split; [reflexivity|]. split; [apply H6; [reflexivity|by eexists]|].
  split; [exact H2|]. rewrite H5. reflexivity.
Defined.

Lemma idle_change_schedules_connect_witness :
  isConnected (run [Mount; TimerFired; Ended 0 Completed] initialState) = false
  ∧ tasks (run [SetParameters "idx30" "volume"; TimerFired]
             (run [Mount; TimerFired; Ended 0 Completed] initialState))
    = tasks (run [Mount; TimerFired; Ended 0 Completed] initialState)
      ++ [mkTask (FilterRequest.mk "idx30" "volume") false 0 None].
Proof.
  assert ((("idx30", "volume") : string * string)
          ≠ (filter (run [Mount; TimerFired; Ended 0 Completed] initialState),
             sortBy (run [Mount; TimerFired; Ended 0 Completed] initialState)))
    as Hne by (intros H; vm_compute in H; discriminate H).
  assert (is_Some (clientRef (run [Mount; TimerFired; Ended 0 Completed]
                                initialState))) as Hc by (by eexists).
  destruct (idle_change_schedules_connect
              [Mount; TimerFired; Ended 0 Completed] "idx30" "volume"
              eq_refl Hc Hne) as (_ & _ & _ & H & _).
  split; [reflexivity|exact H].
Defined.

Lemma guarded_disconnect_reaches_stream_witness :
  guarded [Mount; TimerFired; Response 0 (batch [bbca]) 1000%Z] initialState
  = true
  ∧ abortControllerRef
      (run [Mount; TimerFired; Response 0 (batch [bbca]) 1000%Z] initialState)
    = Some 0
  ∧ is_aborted
      (tasks (step Disconnect
                (run [Mount; TimerFired; Response 0 (batch [bbca]) 1000%Z]
                   initialState))) 0.
Proof.
  assert (has_pending
            (tasks (run [Mount; TimerFired; Response 0 (batch [bbca]) 1000%Z]
                      initialState)) 0) as Hp
    by (eexists; split; reflexivity).
  destruct (guarded_disconnect_reaches_stream
              [Mount; TimerFired; Response 0 (batch [bbca]) 1000%Z] 0
              eq_refl Hp) as (H1 & _ & H3 & _).
  split; [reflexivity|]. split; [exact H1|exact H3].
Defined.

(** The cards and the rows on the sample instruments. *)
Example rows_sample :
  map rowIcon [bbca; tlkm; asii; halted] = ["▲"; "▼"; "●"; "●"]
  ∧ map rowPrefix [bbca; tlkm; asii; halted] = ["+"; ""; ""; ""]
  ∧ count_unsigned [bbca; tlkm; asii; halted] = 1.
Proof. repeat split; vm_compute; reflexivity. Qed.

(** * The timer table *)

(** ** Invariants of the page *)

Lemma clientRef_connect (f s : string) (st : State) :
  is_Some (clientRef st) → is_Some (clientRef (connectToStream f s st)).
Proof. intros [c Hc]. unfold connectToStream. rewrite Hc. by eexists. Qed.

Lemma clientRef_loop_body id r now (st : State) :
  clientRef (loop_body id r now st) = clientRef st.
Proof. handler_cases. Qed.

Lemma clientRef_loop_exit id o (st : State) :
  clientRef (loop_exit id o st) = clientRef st.
Proof. handler_cases. Qed.

Lemma ref_ok_init_effect (st : State) : ref_ok st → ref_ok (init_effect st).
Proof.
  unfold ref_ok, init_effect. simpl. destruct (abortControllerRef st); [|done].
  intros (? & ? & ?). by repeat split.
Qed.

Lemma ref_ok_params (f s : string) (st : State) :
  ref_ok st → ref_ok (setSortBy s (setFilter f st)).
Proof. done. Qed.

Lemma clear_own_timer (p : Page.t) (timer : nat) :
  Page.timers_ok p → Page.cleanup p = Some timer →
  List.filter (λ tm, negb (Page.timer_id tm =? timer)) (Page.queue p) = [].
Proof.
  intros [->|(k & Hk & ->)] Hc; [done|].
  rewrite Hc in Hk. injection Hk as <-. simpl. by rewrite Nat.eqb_refl.
Qed.

Lemma timers_ok_lift (h : State → State) (p : Page.t) :
  filter (h (Page.component p)) = filter (Page.component p) →
  sortBy (h (Page.component p)) = sortBy (Page.component p) →
  Page.timers_ok p → Page.timers_ok (Page.lift h p).
Proof.
  intros Hf Hs [H|(k & Hk & H)]; [by left|right].
  exists k. simpl. by rewrite Hf, Hs.
Qed.

(** After the effect ran on a page without pending timer, the one it set is
    the only one, and it is the one its cleanup will clear. *)
Lemma restart_effect_queue (p : Page.t) :
  Page.queue p = [] →
  Page.cleanup (Page.restart_effect p) = Some (Page.next_id p)
  ∧ Page.queue (Page.restart_effect p)
    = [Page.mkTimer (Page.next_id p)
         (filter (Page.component p), sortBy (Page.component p))]
  ∧ filter (Page.component (Page.restart_effect p)) = filter (Page.component p)
  ∧ sortBy (Page.component (Page.restart_effect p)) = sortBy (Page.component p)
  ∧ Page.component (Page.restart_effect p)
    = (if isConnected (Page.component p) then disconnect (Page.component p)
       else Page.component p).
Proof.
  intros Hq. unfold Page.restart_effect.
  destruct (isConnected (Page.component p)); simpl; rewrite Hq; simpl;
    [destruct (params_disconnect (Page.component p)) as (-> & -> & _)|];
    done.
Qed.

Lemma timers_ok_restart_effect (p : Page.t) :
  Page.queue p = [] → Page.timers_ok (Page.restart_effect p).
Proof.
  intros Hq. destruct (restart_effect_queue p Hq) as (Hc & Hl & Hf & Hs & _).
  right. exists (Page.next_id p). by rewrite Hc, Hl, Hf, Hs.
Qed.

Lemma ref_ok_restart_effect_page (p : Page.t) :
  ref_ok (Page.component p) →
  ref_ok (Page.component (Page.restart_effect p)).
Proof.
  intros H. unfold Page.restart_effect.
  destruct (isConnected (Page.component p)); simpl; [|done].
  by apply ref_ok_disconnect.
Qed.

Lemma clientRef_restart_effect_page (p : Page.t) :
  clientRef (Page.component (Page.restart_effect p))
  = clientRef (Page.component p).
Proof.
  unfold Page.restart_effect.
  destruct (isConnected (Page.component p)); simpl; [|done].
  apply clientRef_disconnect.
Qed.

Lemma page_ok_lift (h : State → State) (p : Page.t) :
  (ref_ok (Page.component p) → ref_ok (h (Page.component p))) →
  filter (h (Page.component p)) = filter (Page.component p) →
  sortBy (h (Page.component p)) = sortBy (Page.component p) →
  (is_Some (clientRef (Page.component p)) →
   is_Some (clientRef (h (Page.component p)))) →
  Page.page_ok p → Page.page_ok (Page.lift h p).
Proof.
  intros Hr Hf Hs Hc (H1 & H2 & H3). split; [by apply Hr|].
  split; [by apply timers_ok_lift|]. intros Hm. apply Hc, H3, Hm.
Qed.

Lemma page_ok_step (e : Event) (p : Page.t) :
  Page.page_ok p → Page.page_ok (Page.step e p).
Proof.
  intros H. pose proof H as (H1 & H2 & H3). destruct e; cbn [Page.step].
  - unfold Page.mount. destruct (Page.cleanup p) as [k|] eqn:Hk; [done|].
    assert (Page.queue (Page.lift init_effect p) = []) as Hq.
    { destruct H2 as [H2|(k & Hk' & _)]; [done|congruence]. }
    split; [by apply ref_ok_restart_effect_page, ref_ok_init_effect|].
    split; [by apply timers_ok_restart_effect|].
    intros _. rewrite clientRef_restart_effect_page. by eexists.
  - unfold Page.unmount. destruct (Page.cleanup p) as [k|] eqn:Hk; [|done].
    split; [by apply ref_ok_disconnect, ref_ok_disconnect|].
    split; [|by intros [? ?]]. left. simpl.
    by apply clear_own_timer.
  - apply page_ok_lift; try done.
    + unfold onClick. destruct (isConnected _);
        [apply ref_ok_disconnect|apply ref_ok_connect].
    + unfold onClick. destruct (isConnected _);
        [by destruct (params_disconnect (Page.component p)) as (-> & _)
        |by destruct (params_connect (filter (Page.component p))
                        (sortBy (Page.component p)) (Page.component p))
           as (-> & _)].
    + unfold onClick. destruct (isConnected _);
        [by destruct (params_disconnect (Page.component p)) as (_ & -> & _)
        |by destruct (params_connect (filter (Page.component p))
                        (sortBy (Page.component p)) (Page.component p))
           as (_ & -> & _)].
    + unfold onClick. destruct (isConnected _);
        [by rewrite clientRef_disconnect|apply clientRef_connect].
  - apply page_ok_lift; try done.
    + apply ref_ok_connect.
    + by destruct (params_connect (filter (Page.component p))
                     (sortBy (Page.component p)) (Page.component p))
        as (-> & _).
    + by destruct (params_connect (filter (Page.component p))
                     (sortBy (Page.component p)) (Page.component p))
        as (_ & -> & _).
    + apply clientRef_connect.
  - apply page_ok_lift; try done.
    + apply ref_ok_disconnect.
    + by destruct (params_disconnect (Page.component p)) as (-> & _).
    + by destruct (params_disconnect (Page.component p)) as (_ & -> & _).
    + by rewrite clientRef_disconnect.
  - unfold Page.setParameters.
    destruct (Page.cleanup p) as [k|] eqn:Hk; [|done].
    destruct (_ && _); [done|].
    assert (Page.queue
              (Page.restart_cleanup k
                 (Page.lift (λ st, setSortBy s (setFilter f st)) p)) = [])
      as Hq by (simpl; by apply clear_own_timer).
    split; [|split].
    + apply ref_ok_restart_effect_page. simpl. by apply ref_ok_disconnect.
    + by apply timers_ok_restart_effect.
    + intros _. rewrite clientRef_restart_effect_page. simpl.
      rewrite clientRef_disconnect. simpl. apply H3. by eexists.
  - unfold Page.timer_fired. destruct (Page.queue p) as [|tm rest] eqn:Hq;
      [done|].
    split; [by apply ref_ok_connect|]. split.
    + left. simpl. destruct H2 as [H2|(k & _ & H2)]; [congruence|].
      rewrite Hq in H2. by injection H2 as _ ->.
    + intros Hm. simpl. apply clientRef_connect, H3, Hm.
  - apply page_ok_lift; try done.
    + apply ref_ok_loop_body.
    + by destruct (params_loop_body id r now (Page.component p)) as (-> & _).
    + by destruct (params_loop_body id r now (Page.component p))
        as (_ & -> & _).
    + by rewrite clientRef_loop_body.
  - apply page_ok_lift; try done.
    + apply ref_ok_loop_exit.
    + by destruct (params_loop_exit id o (Page.component p)) as (-> & _).
    + by destruct (params_loop_exit id o (Page.component p)) as (_ & -> & _).
    + by rewrite clientRef_loop_exit.
Qed.

Lemma page_run_app (tr1 tr2 : list Event) (p : Page.t) :
  Page.run (tr1 ++ tr2) p = Page.run tr2 (Page.run tr1 p).
Proof. apply fold_left_app. Qed.

Lemma page_run_cons (e : Event) (tr : list Event) (p : Page.t) :
  Page.run (e :: tr) p = Page.run tr (Page.step e p).
Proof. done. Qed.

Lemma page_ok_run (tr : list Event) (p : Page.t) :
  Page.page_ok p → Page.page_ok (Page.run tr p).
Proof.
  revert p. induction tr as [|e tr IH]; intros p H; [done|].
  rewrite page_run_cons. by apply IH, page_ok_step.
Qed.

Lemma page_ok_initial : Page.page_ok Page.initial.
Proof. split; [done|]. split; [by left|]. by intros [? ?]. Qed.

(** X3: In every reachable state of the page at most one timer is pending;
    its callback closes over the current [filter] and [sortBy], and it is
    the timer that the registered cleanup clears: an expiry never connects
    with parameters that were replaced after the timer was set, because the
    cleanup of the effect cleared every older timer. *)
Theorem one_timer_current (tr : list Event) :
  length (Page.queue (Page.run tr Page.initial)) ≤ 1
  ∧ ∀ tm, tm ∈ Page.queue (Page.run tr Page.initial) →
          Page.callback tm
          = (filter (Page.component (Page.run tr Page.initial)),
             sortBy (Page.component (Page.run tr Page.initial)))
          ∧ Page.cleanup (Page.run tr Page.initial)
            = Some (Page.timer_id tm).
Proof.
  destruct (page_ok_run tr _ page_ok_initial) as (_ & [H|(k & Hk & H)] & _);
    rewrite H; simpl; (split; [lia|]); intros tm Htm.
  - by apply elem_of_nil in Htm.
  - apply list_elem_of_singleton in Htm as ->. by rewrite Hk.
Qed.

(** ** Changes of parameters on the page *)

Lemma disconnect_params_fields (f s : string) (st : State) :
  tasks (disconnect (setSortBy s (setFilter f st))) = tasks (disconnect st)
  ∧ filter (disconnect (setSortBy s (setFilter f st))) = f
  ∧ sortBy (disconnect (setSortBy s (setFilter f st))) = s
  ∧ clientRef (disconnect (setSortBy s (setFilter f st))) = clientRef st
  ∧ abortControllerRef (disconnect (setSortBy s (setFilter f st)))
    = abortControllerRef st.
Proof. destruct st as [? ? ? ? ? ? ? [id|] ? ? ?]; by unfold disconnect. Qed.

(** A change of parameters on a mounted page: the timer of the previous
    run is cleared, the ref-held call is told to abort, and one timer is
    set for the new parameters. *)
Lemma page_setParameters_changed (f s : string) (p : Page.t) (timer : nat) :
  Page.cleanup p = Some timer → Page.timers_ok p →
  (f, s) ≠ (filter (Page.component p), sortBy (Page.component p)) →
  Page.component (Page.setParameters f s p)
  = disconnect (setSortBy s (setFilter f (Page.component p)))
  ∧ Page.queue (Page.setParameters f s p)
    = [Page.mkTimer (Page.next_id p) (f, s)]
  ∧ Page.cleanup (Page.setParameters f s p) = Some (Page.next_id p).
Proof.
  intros Hk Hok Hne. unfold Page.setParameters. rewrite Hk.
  destruct (String.eqb f (filter (Page.component p))
            && String.eqb s (sortBy (Page.component p))) eqn:E.
  { apply andb_true_iff in E as [Ef Es]. apply String.eqb_eq in Ef, Es.
    by subst. }
  set (q := Page.restart_cleanup timer
              (Page.lift (λ st, setSortBy s (setFilter f st)) p)).
  assert (Page.queue q = []) as Hq by (simpl; by apply clear_own_timer).
  destruct (restart_effect_queue q Hq) as (Hc & Hl & _ & _ & Hcomp).
  rewrite Hc, Hl, Hcomp. unfold q. simpl.
  destruct (disconnect_params_fields f s (Page.component p))
    as (_ & -> & -> & _).
  split; [|done].
  destruct (isConnected _); [apply disconnect_disconnect|done].
Qed.

Lemma page_setParameters_same (f s : string) (p : Page.t) :
  (f, s) = (filter (Page.component p), sortBy (Page.component p)) →
  Page.setParameters f s p = p.
Proof.
  intros [= -> ->]. unfold Page.setParameters.
  destruct (Page.cleanup p); [|done]. by rewrite !String.eqb_refl.
Qed.

Lemma window_refl (p : Page.t) :
  is_Some (Page.cleanup p) → Page.timers_ok p → window p p.
Proof. intros Hm Hok. by repeat split. Qed.

Lemma window_trans (p q r : Page.t) : window p q → window q r → window p r.
Proof.
  intros (_ & _ & Hl & Hc & Ha & Hq) (Hm & Hok & Hl' & Hc' & Ha' & Hq').
  repeat split; try done; try congruence.
  - intros id H. by apply Ha', Ha.
  - intros H. by apply Hq', Hq.
Qed.

Lemma window_setParameters (f s : string) (p : Page.t) :
  is_Some (Page.cleanup p) → Page.timers_ok p →
  window p (Page.setParameters f s p).
Proof.
  intros [k Hk] Hok.
  destruct (decide ((f, s)
                    = (filter (Page.component p), sortBy (Page.component p))))
    as [E|N].
  - rewrite (page_setParameters_same f s p E). apply window_refl; [|done].
    by eexists.
  - destruct (page_setParameters_changed f s p k Hk Hok N) as (Hc & Hq & Hm).
    destruct (disconnect_params_fields f s (Page.component p))
      as (Ht & Hf & Hs & Hcl & Hr).
    unfold window. rewrite Hc, Hq, Hm, Ht, Hcl.
    split; [by eexists|]. split.
    { right. exists (Page.next_id p). by rewrite Hc, Hq, Hm, Hf, Hs. }
    split; [apply length_tasks_disconnect|]. split; [done|].
    split; [intros id; apply is_aborted_disconnect|done].
Qed.

Lemma window_changes (ps : list (string * string)) (p : Page.t) :
  is_Some (Page.cleanup p) → Page.timers_ok p →
  window p (Page.run (map (λ c, SetParameters c.1 c.2) ps) p).
Proof.
  revert p. induction ps as [|[f s] ps IH]; intros p Hm Hok.
  - by apply window_refl.
  - simpl map. rewrite page_run_cons. cbn [Page.step].
    pose proof (window_setParameters f s p Hm Hok) as H.
    eapply window_trans; [exact H|]. destruct H as (Hm' & Hok' & _).
    by apply IH.
Qed.

Lemma page_setParameters_params (f s : string) (p : Page.t) :
  is_Some (Page.cleanup p) → Page.timers_ok p →
  filter (Page.component (Page.setParameters f s p)) = f
  ∧ sortBy (Page.component (Page.setParameters f s p)) = s.
Proof.
  intros [k Hk] Hok.
  destruct (decide ((f, s)
                    = (filter (Page.component p), sortBy (Page.component p))))
    as [E|N].
  - rewrite (page_setParameters_same f s p E). by injection E as -> ->.
  - destruct (page_setParameters_changed f s p k Hk Hok N) as (-> & _).
    by destruct (disconnect_params_fields f s (Page.component p))
      as (_ & -> & -> & _).
Qed.

Lemma page_changes_last (ps : list (string * string)) (f s : string)
    (p : Page.t) :
  is_Some (Page.cleanup p) → Page.timers_ok p → last ps = Some (f, s) →
  filter (Page.component (Page.run (map (λ c, SetParameters c.1 c.2) ps) p))
  = f
  ∧ sortBy (Page.component (Page.run (map (λ c, SetParameters c.1 c.2) ps) p))
    = s.
Proof.
  revert p. induction ps as [|[f' s'] ps IH]; intros p Hm Hok Hl; [done|].
  simpl map. rewrite page_run_cons. cbn [Page.step].
  destruct ps as [|c ps].
  - injection Hl as -> ->. by apply page_setParameters_params.
  - destruct (window_setParameters f' s' p Hm Hok) as (Hm' & Hok' & _).
    by apply IH.
Qed.

(** Once one of the calls changes a value, a timer is pending and the call
    the ref held is told to abort. *)
Lemma page_changes_set (ps : list (string * string)) (p : Page.t) :
  is_Some (Page.cleanup p) → Page.timers_ok p →
  ¬ Forall (λ c, c = (filter (Page.component p), sortBy (Page.component p)))
      ps →
  Page.queue (Page.run (map (λ c, SetParameters c.1 c.2) ps) p) ≠ []
  ∧ ∀ id, abortControllerRef (Page.component p) = Some id →
          is_Some (tasks (Page.component p) !! id) →
          is_aborted
            (tasks (Page.component
                      (Page.run (map (λ c, SetParameters c.1 c.2) ps) p)))
            id.
Proof.
  revert p. induction ps as [|[f s] ps IH]; intros p Hm Hok Hn.
  - destruct Hn. constructor.
  - simpl map. rewrite page_run_cons. cbn [Page.step].
    destruct (decide ((f, s)
                      = (filter (Page.component p),
                         sortBy (Page.component p)))) as [E|N].
    + rewrite (page_setParameters_same f s p E). apply IH; try done.
      intros HF. apply Hn. by constructor.
    + destruct Hm as [k Hk].
      destruct (page_setParameters_changed f s p k Hk Hok N) as (Hc & Hq & _).
      assert (is_Some (Page.cleanup p)) as Hm by by eexists.
      pose proof (window_setParameters f s p Hm Hok) as (Hm' & Hok' & _).
      destruct (window_changes ps _ Hm' Hok') as (_ & _ & _ & _ & Ha & Hne).
      split; [apply Hne; by rewrite Hq|].
      intros id Hr Hl. apply Ha. rewrite Hc.
      destruct (disconnect_params_fields f s (Page.component p)) as (-> & _).
      by apply disconnect_aborts.
Qed.

(** However many expiries follow, one pending timer opens one stream. *)
Lemma page_expiries (p : Page.t) (timer : nat) (f s : string) (n : nat) :
  Page.queue p = [Page.mkTimer timer (f, s)] →
  is_Some (clientRef (Page.component p)) →
  Page.component (Page.run (replicate (S n) TimerFired) p)
  = connectToStream f s (Page.component p)
  ∧ Page.queue (Page.run (replicate (S n) TimerFired) p) = []
  ∧ tasks (Page.component (Page.run (replicate (S n) TimerFired) p))
    = tasks (Page.component p) ++ [mkTask (FilterRequest.mk f s) false 0 None].
Proof.
  intros Hq [c Hc]. simpl replicate. rewrite page_run_cons. cbn [Page.step].
  unfold Page.timer_fired. rewrite Hq. simpl.
  set (q := Page.lift (connectToStream f s) _).
  assert (Page.run (replicate n TimerFired) q = q) as ->.
  { induction n as [|n IH]; [done|]. simpl replicate.
    rewrite page_run_cons. by cbn [Page.step]. }
  unfold q. simpl. repeat split. unfold connectToStream. by rewrite Hc.
Qed.

Lemma page_changes_restart (p : Page.t) (ps : list (string * string))
    (f s : string) (n : nat) :
  Page.page_ok p → is_Some (Page.cleanup p) → last ps = Some (f, s) →
  ¬ Forall (λ c, c = (filter (Page.component p), sortBy (Page.component p)))
      ps
  ∨ Page.queue p ≠ [] →
  length (tasks (Page.component
                   (Page.run (map (λ c, SetParameters c.1 c.2) ps) p)))
  = length (tasks (Page.component p))
  ∧ (∃ timer, Page.queue (Page.run (map (λ c, SetParameters c.1 c.2) ps) p)
              = [Page.mkTimer timer (f, s)])
  ∧ tasks (Page.component
             (Page.run (replicate (S n) TimerFired)
                (Page.run (map (λ c, SetParameters c.1 c.2) ps) p)))
    = tasks (Page.component
               (Page.run (map (λ c, SetParameters c.1 c.2) ps) p))
      ++ [mkTask (FilterRequest.mk f s) false 0 None]
  ∧ Page.queue (Page.run (replicate (S n) TimerFired)
                  (Page.run (map (λ c, SetParameters c.1 c.2) ps) p))
    = [].
Proof.
  intros (_ & Hok & Hcl) Hm Hl Hs.
  set (q := Page.run (map (λ c, SetParameters c.1 c.2) ps) p).
  destruct (window_changes ps p Hm Hok)
    as (Hm' & Hok' & Hlen & Hc & _ & Hq).
  fold q in Hm', Hok', Hlen, Hc, Hq.
  destruct (page_changes_last ps f s p Hm Hok Hl) as [Ef Es].
  fold q in Ef, Es.
  assert (Page.queue q ≠ []) as Hne.
  { destruct Hs as [Hs|Hs]; [|by apply Hq].
    by destruct (page_changes_set ps p Hm Hok Hs). }
  assert (∃ timer, Page.queue q = [Page.mkTimer timer (f, s)]) as [k Hk].
  { destruct Hok' as [H|(k & _ & H)]; [done|]. exists k.
    by rewrite H, Ef, Es. }
  split; [done|]. split; [by exists k|].
  assert (is_Some (clientRef (Page.component q))) as Hcq.
  { rewrite Hc. by apply Hcl. }
  by destruct (page_expiries q k f s n Hk Hcq) as (_ & ? & ?).
Qed.

(** C7: On the page, mounted, in a reachable state whose ref holds the
    stream [id], three calls of [setParameters] with no expiry of a timer
    between them, at least one of which changes a value, open no stream,
    leave the stream [id] told to abort and leave exactly one timer pending,
    the one whose callback closes over the values set last: each cleanup has
    cleared the timer of the run before.  The expiries that follow, however
    many, open exactly one stream, with the parameters set last. *)
Theorem three_changes_one_session (tr0 : list Event) (id : nat)
    (f1 s1 f2 s2 f3 s3 : string) (n : nat) :
  is_Some (Page.cleanup (Page.run tr0 Page.initial)) →
  abortControllerRef (Page.component (Page.run tr0 Page.initial)) = Some id →
  (f1, s1) ≠ (filter (Page.component (Page.run tr0 Page.initial)),
              sortBy (Page.component (Page.run tr0 Page.initial)))
  ∨ (f2, s2) ≠ (f1, s1) ∨ (f3, s3) ≠ (f2, s2) →
  has_pending (tasks (Page.component (Page.run tr0 Page.initial))) id
  ∧ length (tasks (Page.component
                     (Page.run [SetParameters f1 s1; SetParameters f2 s2;
                                SetParameters f3 s3]
                        (Page.run tr0 Page.initial))))
    = length (tasks (Page.component (Page.run tr0 Page.initial)))
  ∧ is_aborted
      (tasks (Page.component
                (Page.run [SetParameters f1 s1; SetParameters f2 s2;
                           SetParameters f3 s3]
                   (Page.run tr0 Page.initial)))) id
  ∧ (∃ timer,
        Page.queue (Page.run [SetParameters f1 s1; SetParameters f2 s2;
                              SetParameters f3 s3]
                      (Page.run tr0 Page.initial))
        = [Page.mkTimer timer (f3, s3)])
  ∧ tasks (Page.component
             (Page.run (replicate (S n) TimerFired)
                (Page.run [SetParameters f1 s1; SetParameters f2 s2;
                           SetParameters f3 s3]
                   (Page.run tr0 Page.initial))))
    = tasks (Page.component
               (Page.run [SetParameters f1 s1; SetParameters f2 s2;
                          SetParameters f3 s3]
                  (Page.run tr0 Page.initial)))
      ++ [mkTask (FilterRequest.mk f3 s3) false 0 None]
  ∧ Page.queue (Page.run (replicate (S n) TimerFired)
                  (Page.run [SetParameters f1 s1; SetParameters f2 s2;
                             SetParameters f3 s3]
                     (Page.run tr0 Page.initial)))
    = [].
Proof.
  intros Hm Hr Hne. set (p := Page.run tr0 Page.initial) in *.
  pose proof (page_ok_run tr0 _ page_ok_initial) as Hok. fold p in Hok.
  pose proof Hok as (Href & Ht & _). unfold ref_ok in Href.
  rewrite Hr in Href. destruct Href as (_ & _ & Hp).
  split; [done|].
  assert (is_Some (tasks (Page.component p) !! id)) as Hl
    by (destruct Hp as (t & -> & _); done).
  assert (¬ Forall (λ c, c = (filter (Page.component p),
                              sortBy (Page.component p)))
              [(f1, s1); (f2, s2); (f3, s3)]) as Hn.
  { intros HF. apply Forall_cons in HF as [E1 HF].
    apply Forall_cons in HF as [E2 HF]. apply Forall_cons in HF as [E3 _].
    destruct Hne as [H|[H|H]]; congruence. }
  destruct (page_changes_restart p [(f1, s1); (f2, s2); (f3, s3)] f3 s3 n
              Hok Hm eq_refl (or_introl Hn)) as (H1 & H2 & H3 & H4).
  destruct (page_changes_set [(f1, s1); (f2, s2); (f3, s3)] p Hm Ht Hn)
    as (_ & Ha).
  split; [exact H1|]. split; [by apply Ha|]. split; [exact H2|].
  split; [exact H3|exact H4].
Qed.

(** X16: On the page, mounted, with or without a stream, any number of
    parameter settings with no timer expiry between them open no stream; if
    one of them changes a value, or a timer was already pending, exactly one
    timer is pending afterwards, with the parameters of the last setting,
    and the expiries that follow open exactly one stream, with those
    parameters. *)
Theorem changes_leave_one_timer (tr : list Event)
    (ps : list (string * string)) (f s : string) (n : nat) :
  is_Some (Page.cleanup (Page.run tr Page.initial)) →
  last ps = Some (f, s) →
  ¬ Forall (λ c, c = (filter (Page.component (Page.run tr Page.initial)),
                      sortBy (Page.component (Page.run tr Page.initial)))) ps
  ∨ Page.queue (Page.run tr Page.initial) ≠ [] →
  length (tasks (Page.component
                   (Page.run (map (λ c, SetParameters c.1 c.2) ps)
                      (Page.run tr Page.initial))))
  = length (tasks (Page.component (Page.run tr Page.initial)))
  ∧ (∃ timer,
        Page.queue (Page.run (map (λ c, SetParameters c.1 c.2) ps)
                      (Page.run tr Page.initial))
        = [Page.mkTimer timer (f, s)])
  ∧ tasks (Page.component
             (Page.run (replicate (S n) TimerFired)
                (Page.run (map (λ c, SetParameters c.1 c.2) ps)
                   (Page.run tr Page.initial))))
    = tasks (Page.component
               (Page.run (map (λ c, SetParameters c.1 c.2) ps)
                  (Page.run tr Page.initial)))
      ++ [mkTask (FilterRequest.mk f s) false 0 None]
  ∧ Page.queue (Page.run (replicate (S n) TimerFired)
                  (Page.run (map (λ c, SetParameters c.1 c.2) ps)
                     (Page.run tr Page.initial)))
    = [].
Proof.
  intros Hm Hl Hs.
  exact (page_changes_restart _ ps f s n (page_ok_run tr _ page_ok_initial)
           Hm Hl Hs).
Qed.

Lemma restart_effect_disconnects (st : State) :
  ref_ok st → (if isConnected st then disconnect st else st) = disconnect st.
Proof.
  unfold ref_ok, disconnect.
  destruct (abortControllerRef st) as [id|]; [by intros (-> & _)|].
  by intros ->.
Qed.

Lemma init_effect_disconnect (st : State) :
  init_effect (disconnect st) = disconnect (init_effect st).
Proof. unfold disconnect. simpl. by destruct (abortControllerRef st). Qed.

Lemma init_effect_twice (st : State) :
  init_effect (init_effect st) = init_effect st.
Proof. done. Qed.

Lemma page_mount_fresh (p : Page.t) :
  Page.cleanup p = None → Page.page_ok p →
  Page.mount p
  = Page.mk (disconnect (init_effect (Page.component p)))
      [Page.mkTimer (Page.next_id p)
         (filter (Page.component p), sortBy (Page.component p))]
      (S (Page.next_id p)) (Some (Page.next_id p)).
Proof.
  intros Hc (Hr & Ht & _). unfold Page.mount. rewrite Hc.
  assert (Page.queue p = []) as Hq.
  { destruct Ht as [H|(k & Hk & _)]; [done|congruence]. }
  unfold Page.restart_effect.
  pose proof (restart_effect_disconnects _ (ref_ok_init_effect _ Hr)) as E.
  destruct p as [c q k cl]. simpl in *. subst q.
  change (isConnected (init_effect c)) with (isConnected c) in E.
  destruct (isConnected c); simpl.
  - by destruct (params_disconnect (init_effect c)) as (-> & -> & _).
  - by rewrite <- E.
Qed.

Lemma page_unmount_mounted (p : Page.t) (timer : nat) :
  Page.cleanup p = Some timer → Page.timers_ok p →
  Page.unmount p
  = Page.mk (disconnect (Page.component p)) [] (Page.next_id p) None.
Proof.
  intros Hc Ht. unfold Page.unmount. rewrite Hc.
  unfold Page.restart_cleanup, Page.clearTimeout, init_cleanup. simpl.
  rewrite (clear_own_timer p timer Ht Hc). by rewrite disconnect_disconnect.
Qed.

(** X14: React.StrictMode, which the entry file wraps the component in,
    runs the effects as mount, unmount, mount.  On the page this leaves
    exactly one timer pending, the second one set (the cleanup cleared the
    first), the same component state as a single mount, and the expiries
    that follow open exactly one stream. *)
Theorem strict_mode_one_timer (tr : list Event) (n : nat) :
  Page.cleanup (Page.run tr Page.initial) = None →
  Page.queue (Page.run [Mount; Unmount; Mount] (Page.run tr Page.initial))
  = [Page.mkTimer (S (Page.next_id (Page.run tr Page.initial)))
       (filter (Page.component (Page.run tr Page.initial)),
        sortBy (Page.component (Page.run tr Page.initial)))]
  ∧ Page.cleanup
      (Page.run [Mount; Unmount; Mount] (Page.run tr Page.initial))
    = Some (S (Page.next_id (Page.run tr Page.initial)))
  ∧ Page.component
      (Page.run [Mount; Unmount; Mount] (Page.run tr Page.initial))
    = Page.component (Page.run [Mount] (Page.run tr Page.initial))
  ∧ tasks (Page.component
             (Page.run (replicate (S n) TimerFired)
                (Page.run [Mount; Unmount; Mount]
                   (Page.run tr Page.initial))))
    = tasks (Page.component
               (Page.run [Mount; Unmount; Mount] (Page.run tr Page.initial)))
      ++ [mkTask
            (FilterRequest.mk
               (filter (Page.component (Page.run tr Page.initial)))
               (sortBy (Page.component (Page.run tr Page.initial))))
            false 0 None].
Proof.
  intros Hc. set (p := Page.run tr Page.initial) in *.
  pose proof (page_ok_run tr _ page_ok_initial) as Hok. fold p in Hok.
  pose proof (page_ok_step Mount p Hok) as Hok1.
  pose proof (page_ok_step Unmount _ Hok1) as Hok2.
  pose proof (page_ok_step Mount _ Hok2) as Hok3.
  change (Page.run [Mount; Unmount; Mount] p)
    with (Page.step Mount (Page.step Unmount (Page.step Mount p))) in *.
  change (Page.run [Mount] p) with (Page.step Mount p).
  cbn [Page.step] in *.
  pose proof (page_mount_fresh p Hc Hok) as E1.
  assert (Page.unmount (Page.mount p)
          = Page.mk (disconnect (init_effect (Page.component p))) []
              (S (Page.next_id p)) None) as E2.
  { rewrite (page_unmount_mounted (Page.mount p) (Page.next_id p));
      [|by rewrite E1|by destruct Hok1 as (_ & ? & _)].
    rewrite E1. simpl. by rewrite disconnect_disconnect. }
  assert (Page.mount (Page.unmount (Page.mount p))
          = Page.mk (disconnect (init_effect (Page.component p)))
              [Page.mkTimer (S (Page.next_id p))
                 (filter (Page.component p), sortBy (Page.component p))]
              (S (S (Page.next_id p))) (Some (S (Page.next_id p)))) as E3.
  { assert (Page.cleanup (Page.unmount (Page.mount p)) = None) as Hc2
      by (by rewrite E2).
    rewrite (page_mount_fresh _ Hc2 Hok2). rewrite E2. simpl.
    destruct (params_disconnect (init_effect (Page.component p)))
      as (-> & -> & _). simpl.
    by rewrite <- init_effect_disconnect, disconnect_disconnect,
      init_effect_disconnect. }
  split; [by rewrite E3|]. split; [by rewrite E3|].
  split; [by rewrite E3, E1|].
  destruct (page_expiries (Page.mount (Page.unmount (Page.mount p)))
              (S (Page.next_id p)) (filter (Page.component p))
              (sortBy (Page.component p)) n) as (_ & _ & H).
  - by rewrite E3.
  - destruct Hok3 as (_ & _ & H). apply H. rewrite E3. by eexists.
  - exact H.
Qed.

(** ** Runs of the page on sample data *)

Lemma three_changes_one_session_witness :
  Page.cleanup (Page.run [Mount; TimerFired] Page.initial) = Some 0
  ∧ abortControllerRef (Page.component (Page.run [Mount; TimerFired] Page.initial))
    = Some 0
  ∧ is_aborted
      (tasks (Page.component
                (Page.run [SetParameters "idx30" "percent_change";
                           SetParameters "lq45" "percent_change";
                           SetParameters "lq45" "volume"]
                   (Page.run [Mount; TimerFired] Page.initial)))) 0
  ∧ tasks (Page.component
             (Page.run (replicate 3 TimerFired)
                (Page.run [SetParameters "idx30" "percent_change";
                           SetParameters "lq45" "percent_change";
                           SetParameters "lq45" "volume"]
                   (Page.run [Mount; TimerFired] Page.initial))))
    = tasks (Page.component
               (Page.run [SetParameters "idx30" "percent_change";
                          SetParameters "lq45" "percent_change";
                          SetParameters "lq45" "volume"]
                  (Page.run [Mount; TimerFired] Page.initial)))
      ++ [mkTask (FilterRequest.mk "lq45" "volume") false 0 None].
Proof.
  assert (is_Some (Page.cleanup (Page.run [Mount; TimerFired] Page.initial)))
    as Hm by (by eexists).
  assert ((("idx30", "percent_change") : string * string)
          ≠ (filter (Page.component
                       (Page.run [Mount; TimerFired] Page.initial)),
             sortBy (Page.component
                       (Page.run [Mount; TimerFired] Page.initial)))) as Hne.
  { intros H. vm_compute in H. discriminate H. }
  destruct (three_changes_one_session [Mount; TimerFired] 0
              "idx30" "percent_change" "lq45" "percent_change" "lq45" "volume"
              2 Hm eq_refl (or_introl Hne)) as (_ & _ & Ha & _ & Ht & _).
  split; [reflexivity|]. split; [reflexivity|]. split; [exact Ha|exact Ht].
Defined.

(** The three calls on the streaming page, step by step: each run of the
    effect takes a new timer id, and each cleanup clears the one before. *)
Example three_changes_timers :
  Page.queue (Page.run [Mount; TimerFired] Page.initial) = []
  ∧ Page.queue (Page.run [Mount; TimerFired;
                          SetParameters "idx30" "percent_change"]
                  Page.initial)
    = [Page.mkTimer 1 ("idx30", "percent_change")]
  ∧ Page.queue (Page.run [Mount; TimerFired;
                          SetParameters "idx30" "percent_change";
                          SetParameters "lq45" "percent_change"]
                  Page.initial)
    = [Page.mkTimer 2 ("lq45", "percent_change")]
  ∧ Page.queue (Page.run [Mount; TimerFired;
                          SetParameters "idx30" "percent_change";
                          SetParameters "lq45" "percent_change";
                          SetParameters "lq45" "volume"]
                  Page.initial)
    = [Page.mkTimer 3 ("lq45", "volume")]
  ∧ request
    <$> tasks (Page.component
                 (Page.run [Mount; TimerFired;
                            SetParameters "idx30" "percent_change";
                            SetParameters "lq45" "percent_change";
                            SetParameters "lq45" "volume";
                            TimerFired; TimerFired; TimerFired]
                    Page.initial))
    = [FilterRequest.mk "all" "percent_change";
       FilterRequest.mk "lq45" "volume"].
Proof. repeat split; vm_compute; reflexivity. Qed.

Lemma changes_leave_one_timer_witness :
  tasks (Page.component
           (Page.run (replicate 2 TimerFired)
              (Page.run (map (λ c, SetParameters c.1 c.2)
                           [("idx30", "percent_change");
                            ("lq45", "percent_change"); ("lq45", "volume");
                            ("kompas100", "code")])
                 (Page.run [Mount; TimerFired] Page.initial))))
  = tasks (Page.component
             (Page.run (map (λ c, SetParameters c.1 c.2)
                          [("idx30", "percent_change");
                           ("lq45", "percent_change"); ("lq45", "volume");
                           ("kompas100", "code")])
                (Page.run [Mount; TimerFired] Page.initial)))
    ++ [mkTask (FilterRequest.mk "kompas100" "code") false 0 None].
Proof.
  assert (is_Some (Page.cleanup (Page.run [Mount; TimerFired] Page.initial)))
    as Hm by (by eexists).
  assert (¬ Forall (λ c : string * string,
                      c = (filter (Page.component
                                     (Page.run [Mount; TimerFired]
                                        Page.initial)),
                           sortBy (Page.component
                                     (Page.run [Mount; TimerFired]
                                        Page.initial))))
              [("idx30", "percent_change"); ("lq45", "percent_change");
               ("lq45", "volume"); ("kompas100", "code")]) as Hn.
  { intros H. apply Forall_cons in H as [H _]. vm_compute in H.
    discriminate H. }
  destruct (changes_leave_one_timer [Mount; TimerFired]
              [("idx30", "percent_change"); ("lq45", "percent_change");
               ("lq45", "volume"); ("kompas100", "code")]
              "kompas100" "code" 1 Hm eq_refl (or_introl Hn))
    as (_ & _ & H & _).
  exact H.
Defined.

Lemma strict_mode_one_timer_witness :
  Page.cleanup Page.initial = None
  ∧ Page.queue (Page.run [Mount; Unmount; Mount] Page.initial)
    = [Page.mkTimer 1 ("all", "percent_change")]
  ∧ tasks (Page.component
             (Page.run (replicate 2 TimerFired)
                (Page.run [Mount; Unmount; Mount] Page.initial)))
    = [mkTask (FilterRequest.mk "all" "percent_change") false 0 None].
Proof.
  destruct (strict_mode_one_timer [] 1 eq_refl) as (Hq & _ & _ & Ht).
  split; [reflexivity|]. split; [exact Hq|exact Ht].
Defined.

(** ** The timer table and the timer slot *)

(** No handler but the restart effect, its cleanup and the expiry reads or
    writes a timer. *)
Lemma setTimer_handler (e : Event) (v : option (string * string))
    (st : State) :
  match e with
  | Click | Connect | Disconnect | Response _ _ _ | Ended _ _ => True
  | _ => False
  end →
  step e (setTimer v st) = setTimer v (step e st).
Proof.
  destruct st as [sk ic er fi so lu mc rf cl ti ta].
  destruct e; try done; intros _; cbn [step];
    unfold onClick, loop_body, loop_exit, connectToStream, disconnect,
      finally_clause, catch_clause; simpl;
    repeat case_match; simpl; try done.
Qed.

Lemma setTimer_disconnect (v : option (string * string)) (st : State) :
  disconnect (setTimer v st) = setTimer v (disconnect st).
Proof. exact (setTimer_handler Disconnect v st I). Qed.

Lemma setTimer_connect (f s : string) (v : option (string * string))
    (st : State) :
  connectToStream f s (setTimer v st) = setTimer v (connectToStream f s st).
Proof. destruct st. unfold connectToStream. simpl. by case_match. Qed.

Lemma setTimer_twice (v w : option (string * string)) (st : State) :
  setTimer v (setTimer w st) = setTimer v st.
Proof. done. Qed.

Lemma slot_step (e : Event) (p : Page.t) :
  Page.page_ok p → Page.lifecycle [e] p = true →
  Page.slot (Page.step e p) = step e (Page.slot p).
Proof.
  intros Hok Hl. pose proof Hok as (Hr & Ht & _).
  simpl in Hl. rewrite andb_true_r in Hl.
  destruct e as [| | | | |f s| |id r now|id o]; cbn [Page.step];
    try (symmetry; by apply setTimer_handler).
  - apply negb_true_iff, bool_decide_eq_false in Hl.
    assert (Page.cleanup p = None) as Hc
      by (destruct (Page.cleanup p); [destruct Hl; by eexists|done]).
    assert (Page.queue p = []) as Hq.
    { destruct Ht as [H|(k & Hk & _)]; [done|congruence]. }
    rewrite (page_mount_fresh p Hc Hok). unfold Page.slot. rewrite Hq.
    cbn [step]. unfold mount, restart_effect. simpl.
    change (init_effect (setTimer None (Page.component p)))
      with (setTimer None (init_effect (Page.component p))).
    change (isConnected (setTimer None (init_effect (Page.component p))))
      with (isConnected (init_effect (Page.component p))).
    rewrite setTimer_disconnect.
    pose proof (restart_effect_disconnects _ (ref_ok_init_effect _ Hr)) as E.
    change (isConnected (init_effect (Page.component p)))
      with (isConnected (Page.component p)) in E.
    destruct (params_disconnect (init_effect (Page.component p)))
      as (Hf & Hs & _).
    destruct (isConnected (Page.component p)); simpl.
    + by rewrite Hf, Hs.
    + by rewrite <- E.
  - apply bool_decide_eq_true in Hl as [k Hk].
    rewrite (page_unmount_mounted p k Hk Ht). unfold Page.slot. simpl.
    cbn [step]. unfold unmount, restart_cleanup, init_cleanup.
    by rewrite !setTimer_disconnect, setTimer_twice, disconnect_disconnect.
  - apply bool_decide_eq_true in Hl as [k Hk].
    destruct (decide ((f, s)
                      = (filter (Page.component p),
                         sortBy (Page.component p)))) as [E|N].
    + rewrite (page_setParameters_same f s p E).
      symmetry. by apply setParameters_same.
    + destruct (page_setParameters_changed f s p k Hk Ht N)
        as (Hc & Hq & _).
      unfold Page.slot at 1. rewrite Hc, Hq. simpl.
      cbn [step]. unfold setParameters, Page.slot. simpl.
      destruct (String.eqb f (filter (Page.component p))
                && String.eqb s (sortBy (Page.component p))) eqn:Eb.
      { destruct N. apply andb_true_iff in Eb as [E1 E2].
        apply String.eqb_eq in E1, E2. by subst. }
      unfold restart_effect, restart_cleanup. simpl.
      change (setSortBy s (setFilter f
                (setTimer (Page.callback <$> head (Page.queue p))
                   (Page.component p))))
        with (setTimer (Page.callback <$> head (Page.queue p))
                (setSortBy s (setFilter f (Page.component p)))).
      rewrite setTimer_twice, setTimer_disconnect.
      set (c := setSortBy s (setFilter f (Page.component p))).
      change (isConnected (setTimer None (disconnect c)))
        with (isConnected (disconnect c)).
      assert (ref_ok (disconnect c)) as Hrd
        by (by apply ref_ok_disconnect, ref_ok_params).
      pose proof (restart_effect_disconnects _ Hrd) as E.
      rewrite disconnect_disconnect in E.
      destruct (disconnect_params_fields f s (Page.component p))
        as (_ & Hf & Hs & _). fold c in Hf, Hs.
      destruct (isConnected (disconnect c)); simpl.
      * rewrite setTimer_disconnect, disconnect_disconnect. simpl.
        by rewrite Hf, Hs.
      * by rewrite Hf, Hs.
  - cbn [step]. unfold Page.timer_fired, timer_fired, Page.slot.
    destruct Ht as [Hq|(k & _ & Hq)]; rewrite Hq; simpl.
    + by rewrite Hq.
    + by rewrite setTimer_twice, setTimer_connect.
Qed.

Lemma lifecycle_cons (e : Event) (tr : list Event) (p : Page.t) :
  Page.lifecycle (e :: tr) p
  = Page.lifecycle [e] p && Page.lifecycle tr (Page.step e p).
Proof. simpl. by rewrite andb_true_r. Qed.

Lemma slot_run (tr : list Event) (p : Page.t) :
  Page.page_ok p → Page.lifecycle tr p = true →
  Page.slot (Page.run tr p) = run tr (Page.slot p).
Proof.
  revert p. induction tr as [|e tr IH]; intros p Hok Hl; [done|].
  rewrite lifecycle_cons in Hl. apply andb_true_iff in Hl as [H1 H2].
  rewrite page_run_cons. cbn [run fold_left].
  change (fold_left (λ st e, step e st) tr (step e (Page.slot p)))
    with (run tr (step e (Page.slot p))).
  rewrite <- (slot_step e p Hok H1). apply IH; [|done].
  by apply page_ok_step.
Qed.

(** X18: The timer slot of the component state is what the timer table
    comes to under the cleanup of lines 122-125: along every run in which
    the effects are run as React runs them (a mount of a component that is
    not mounted, an unmount or a change of parameters of one that is) the
    page with the table, its oldest timer taken for the slot, is in the
    state the run reaches on the component with one slot. *)
Theorem timer_table_refines_slot (tr : list Event) :
  Page.lifecycle tr Page.initial = true →
  Page.slot (Page.run tr Page.initial) = run tr initialState.
Proof. intros Hl. exact (slot_run tr Page.initial page_ok_initial Hl). Qed.

Lemma timer_table_refines_slot_witness :
  Page.lifecycle [Mount; Unmount; Mount; TimerFired;
                  Response 0 (batch [bbca]) 1000%Z; Disconnect;
                  Ended 0 (Threw rpcAborted); SetParameters "idx30" "volume";
                  SetParameters "lq45" "volume"; TimerFired; Unmount]
    Page.initial = true
  ∧ Page.slot (Page.run [Mount; Unmount; Mount; TimerFired;
                         Response 0 (batch [bbca]) 1000%Z; Disconnect;
                         Ended 0 (Threw rpcAborted);
                         SetParameters "idx30" "volume";
                         SetParameters "lq45" "volume"; TimerFired; Unmount]
                 Page.initial)
    = run [Mount; Unmount; Mount; TimerFired;
           Response 0 (batch [bbca]) 1000%Z; Disconnect;
           Ended 0 (Threw rpcAborted); SetParameters "idx30" "volume";
           SetParameters "lq45" "volume"; TimerFired; Unmount]
        initialState.
Proof.
  split; [vm_compute; reflexivity|].
  apply (timer_table_refines_slot
           [Mount; Unmount; Mount; TimerFired;
            Response 0 (batch [bbca]) 1000%Z; Disconnect;
            Ended 0 (Threw rpcAborted); SetParameters "idx30" "volume";
            SetParameters "lq45" "volume"; TimerFired; Unmount]).
  vm_compute. reflexivity.
Defined.

(** ** Batches and ends of streams within the window *)

Lemma stream_event_keeps (e : Event) (st : State) :
  is_stream_event e = true →
  length (tasks (step e st)) = length (tasks st)
  ∧ clientRef (step e st) = clientRef st
  ∧ filter (step e st) = filter st
  ∧ sortBy (step e st) = sortBy st
  ∧ ∀ id, is_aborted (tasks st) id → is_aborted (tasks (step e st)) id.
Proof.
  intros He.
  destruct e as [| | | | | | |i r now|i o]; try done; cbn [step].
  - destruct (params_loop_body i r now st) as (Hf & Hs & _).
    split; [|split; [apply clientRef_loop_body|]; split; [done|];
             split; [done|]];
      unfold loop_body; destruct (tasks st !! i) as [t|]; try done;
      destruct (pending t); try done.
    + destruct (js_eq _ _); [destruct (DataStreamResponse.data r)|]; simpl;
        by rewrite length_alter.
    + intros id Ha.
      assert (is_aborted (alter bump i (tasks st)) id) as Ha'
        by by apply is_aborted_alter.
      by destruct (js_eq _ _); [destruct (DataStreamResponse.data r)|].
  - destruct (params_loop_exit i o st) as (Hf & Hs & _).
    split; [|split; [apply clientRef_loop_exit|]; split; [done|];
             split; [done|]];
      unfold loop_exit; destruct (tasks st !! i) as [t|]; try done;
      destruct (pending t); try done.
    + destruct o as [|err|]; simpl; [|destruct (String.eqb _ _); simpl|];
        by rewrite length_alter.
    + intros id Ha.
      assert (is_aborted (alter (settle o) i (tasks st)) id) as Ha'
        by by apply is_aborted_alter.
      destruct o as [|err|]; simpl; [done| |done].
      by destruct (String.eqb _ _).
Qed.

Lemma page_stream_event (e : Event) (p : Page.t) :
  is_stream_event e = true →
  Page.step e p = Page.lift (step e) p.
Proof. by destruct e. Qed.

Lemma window_stream_events (ev : list Event) (p : Page.t) :
  forallb is_stream_event ev = true →
  is_Some (Page.cleanup p) → Page.timers_ok p →
  window p (Page.run ev p)
  ∧ filter (Page.component (Page.run ev p)) = filter (Page.component p)
  ∧ sortBy (Page.component (Page.run ev p)) = sortBy (Page.component p).
Proof.
  revert p. induction ev as [|e ev IH]; intros p Hev Hm Hok.
  - split; [by apply window_refl|done].
  - simpl in Hev. apply andb_true_iff in Hev as [He Hev].
    rewrite page_run_cons, (page_stream_event e p He).
    destruct (stream_event_keeps e (Page.component p) He)
      as (Hl & Hc & Hf & Hs & Ha).
    assert (Page.timers_ok (Page.lift (step e) p)) as Hok'
      by by apply timers_ok_lift.
    destruct (IH (Page.lift (step e) p) Hev Hm Hok') as (Hw & Hf' & Hs').
    split; [|by rewrite Hf', Hs'].
    eapply window_trans; [|exact Hw].
    unfold window. simpl. by repeat split.
Qed.

(** The stream told to abort ends within the window, as a rule: the
    restart goes the same way with batches and ends of streams between the
    calls, once the first call has changed a value. *)
Lemma three_changes_with_stream_events (tr0 ev1 ev2 ev3 : list Event)
    (id : nat) (f1 s1 f2 s2 f3 s3 : string) (n : nat) :
  is_Some (Page.cleanup (Page.run tr0 Page.initial)) →
  abortControllerRef (Page.component (Page.run tr0 Page.initial)) = Some id →
  (f1, s1) ≠ (filter (Page.component (Page.run tr0 Page.initial)),
              sortBy (Page.component (Page.run tr0 Page.initial))) →
  forallb is_stream_event ev1 = true →
  forallb is_stream_event ev2 = true →
  forallb is_stream_event ev3 = true →
  length (tasks (Page.component
                   (Page.run ([SetParameters f1 s1] ++ ev1
                              ++ [SetParameters f2 s2] ++ ev2
                              ++ [SetParameters f3 s3] ++ ev3)
                      (Page.run tr0 Page.initial))))
  = length (tasks (Page.component (Page.run tr0 Page.initial)))
  ∧ is_aborted
      (tasks (Page.component
                (Page.run ([SetParameters f1 s1] ++ ev1
                           ++ [SetParameters f2 s2] ++ ev2
                           ++ [SetParameters f3 s3] ++ ev3)
                   (Page.run tr0 Page.initial)))) id
  ∧ (∃ timer,
        Page.queue (Page.run ([SetParameters f1 s1] ++ ev1
                              ++ [SetParameters f2 s2] ++ ev2
                              ++ [SetParameters f3 s3] ++ ev3)
                      (Page.run tr0 Page.initial))
        = [Page.mkTimer timer (f3, s3)])
  ∧ tasks (Page.component
             (Page.run (replicate (S n) TimerFired)
                (Page.run ([SetParameters f1 s1] ++ ev1
                           ++ [SetParameters f2 s2] ++ ev2
                           ++ [SetParameters f3 s3] ++ ev3)
                   (Page.run tr0 Page.initial))))
    = tasks (Page.component
               (Page.run ([SetParameters f1 s1] ++ ev1
                          ++ [SetParameters f2 s2] ++ ev2
                          ++ [SetParameters f3 s3] ++ ev3)
                  (Page.run tr0 Page.initial)))
      ++ [mkTask (FilterRequest.mk f3 s3) false 0 None].
Proof.
  intros Hm Hr Hne H1 H2 H3. set (p := Page.run tr0 Page.initial) in *.
  pose proof (page_ok_run tr0 _ page_ok_initial) as Hok. fold p in Hok.
  pose proof Hok as (Href & Ht & Hcl). unfold ref_ok in Href.
  rewrite Hr in Href. destruct Href as (_ & _ & Hp).
  assert (is_Some (tasks (Page.component p) !! id)) as Hl
    by (destruct Hp as (t & -> & _); done).
  rewrite !page_run_app.
  change (Page.run [SetParameters f1 s1] p) with (Page.setParameters f1 s1 p).
  set (p1 := Page.setParameters f1 s1 p).
  pose proof (window_setParameters f1 s1 p Hm Ht) as W1. fold p1 in W1.
  destruct (page_changes_set [(f1, s1)] p Hm Ht) as (Hq1 & Ha1).
  { intros HF. by apply Forall_cons in HF as [E _]. }
  change (Page.run (map (λ c, SetParameters c.1 c.2) [(f1, s1)]) p)
    with p1 in Hq1, Ha1.
  specialize (Ha1 id Hr Hl).
  set (p2 := Page.run ev1 p1).
  destruct (window_stream_events ev1 p1 H1) as (W2 & _);
    [by destruct W1 as (? & ? & _)..|]. fold p2 in W2.
  change (Page.run [SetParameters f2 s2] p2) with (Page.setParameters f2 s2 p2).
  set (p3 := Page.setParameters f2 s2 p2).
  assert (window p2 p3) as W3
    by (destruct W2 as (? & ? & _); by apply window_setParameters).
  set (p4 := Page.run ev2 p3).
  destruct (window_stream_events ev2 p3 H2) as (W4 & _);
    [by destruct W3 as (? & ? & _)..|]. fold p4 in W4.
  change (Page.run [SetParameters f3 s3] p4) with (Page.setParameters f3 s3 p4).
  set (p5 := Page.setParameters f3 s3 p4).
  assert (window p4 p5) as W5
    by (destruct W4 as (? & ? & _); by apply window_setParameters).
  destruct (page_setParameters_params f3 s3 p4) as [Ef Es];
    [by destruct W4 as (? & ? & _)..|]. fold p5 in Ef, Es.
  set (p6 := Page.run ev3 p5).
  destruct (window_stream_events ev3 p5 H3) as (W6 & Ef' & Es');
    [by destruct W5 as (? & ? & _)..|]. fold p6 in W6, Ef', Es'.
  assert (window p p6) as (Hm6 & Ht6 & Hl6 & Hc6 & _ & _).
  { repeat (eapply window_trans; [eassumption|]). by apply window_refl;
      destruct W6 as (? & ? & _). }
  assert (window p1 p6) as (_ & _ & _ & _ & Ha6 & Hq6).
  { repeat (eapply window_trans; [eassumption|]). by apply window_refl;
      destruct W6 as (? & ? & _). }
  assert (∃ timer, Page.queue p6 = [Page.mkTimer timer (f3, s3)]) as [k Hk].
  { destruct Ht6 as [H|(k & _ & H)]; [by destruct (Hq6 Hq1)|]. exists k.
    by rewrite H, Ef', Es', Ef, Es. }
  split; [done|]. split; [by apply Ha6|]. split; [by exists k|].
  assert (is_Some (clientRef (Page.component p6))) as Hcq
    by (rewrite Hc6; by apply Hcl).
  by destruct (page_expiries p6 k f3 s3 n Hk Hcq) as (_ & _ & ?).
Qed.

(** The stream told to abort by the first call ends, with the error of an
    aborted request, before the second call; a batch arrives before that. *)
Example three_changes_with_stream_events_sample :
  request
  <$> tasks (Page.component
               (Page.run ([SetParameters "idx30" "percent_change"]
                          ++ [Response 0 (batch [bbca]) 1000%Z;
                              Ended 0 (Threw rpcAborted)]
                          ++ [SetParameters "lq45" "percent_change"] ++ []
                          ++ [SetParameters "lq45" "volume"] ++ []
                          ++ replicate 3 TimerFired)
                  (Page.run [Mount; TimerFired] Page.initial)))
  = [FilterRequest.mk "all" "percent_change"; FilterRequest.mk "lq45" "volume"].
Proof. vm_compute. reflexivity. Qed.
